(** * parse_messages.py: the message-store watcher

    A shallow embedding of [src/parse_messages.py]: the store accessor
    ([connect_to_database], [get_most_recent_message]), the change sentinel
    ([get_wal_modtime]), the presentation function
    ([display_default_message]), the polling loop ([watch_mode]) and the
    command-line shell ([main]).

    Effects are written out: every function that prints, stats a file,
    queries the store or sleeps returns the list of events it performed,
    and code that can raise returns an [outcome]. *)

From Stdlib Require Import ZArith List String Ascii Bool Lia DecimalString.
From Stdlib Require Import Floats.SpecFloat.
Import ListNotations.
Open Scope string_scope.
Open Scope Z_scope.

(** ** Python values held by a row

    The storage contract types the columns [Id] (integer), [Timestamp]
    (text), [Username] and [Message] (nullable text); SQLite hands them to
    Python as [None], [int] or [str]. *)

Inductive value : Type :=
  | VNone
  | VInt (z : Z)
  | VStr (s : string).

(** Python's [==] on these values (an [int] never equals a [str]). *)
Definition value_eqb (a b : value) : bool :=
  match a, b with
  | VNone, VNone => true
  | VInt x, VInt y => Z.eqb x y
  | VStr x, VStr y => String.eqb x y
  | _, _ => false
  end.

(** Python's [!=]. *)
Definition value_ne (a b : value) : bool := negb (value_eqb a b).

(** Truth value of a Python object: [None], [0] and [""] are false. *)
Definition truthy (v : value) : bool :=
  match v with
  | VNone => false
  | VInt z => negb (Z.eqb z 0)
  | VStr s => negb (String.eqb s "")
  end.

(** [str(v)], as an f-string or [print] renders it. *)
Definition py_str (v : value) : string :=
  match v with
  | VNone => "None"
  | VInt z => NilZero.string_of_int (Z.to_int z)
  | VStr s => s
  end.

(** [v or default], with the string literal already a Python value. *)
Definition py_or (v : value) (default : string) : value :=
  if truthy v then v else VStr default.

(** ** Rows

    A [sqlite3.Row] of the [PrivateMessages] table.  The four columns of the
    storage contract are reached by name in the source and are fields here;
    [columns] lists all the columns of the table in the table's own order,
    which is the order of [row.keys()]: the four by their names, any other
    column with its name and value. *)

Inductive column : Type :=
  | ColId
  | ColTimestamp
  | ColUsername
  | ColMessage
  | ColOther (name : string) (v : value).

Record Row : Type := mkRow {
  Id : value;
  Timestamp : value;
  Username : value;
  Message : value;
  columns : list column
}.

(** The columns the code does not name. *)
Definition other_columns (r : Row) : list (string * value) :=
  flat_map (fun c => match c with ColOther name v => [(name, v)] | _ => [] end)
           (columns r).

(** [key] and [row[key]] for one column. *)
Definition column_item (r : Row) (c : column) : string * value :=
  match c with
  | ColId => ("Id", Id r)
  | ColTimestamp => ("Timestamp", Timestamp r)
  | ColUsername => ("Username", Username r)
  | ColMessage => ("Message", Message r)
  | ColOther name v => (name, v)
  end.

(** [row.keys()] paired with [row[key]], in the order of [row.keys()]. *)
Definition row_items (r : Row) : list (string * value) :=
  map (column_item r) (columns r).

(** [len(row)], the number of columns: the four of the contract and the
    others.  A row is true in a condition when its length is not zero. *)
Definition row_len (r : Row) : nat := 4 + List.length (other_columns r).

Definition row_truthy (r : Row) : bool := negb (Nat.eqb (row_len r) 0).

(** An [Optional[Row]] in a condition: [None] is false. *)
Definition opt_row_truthy (o : option Row) : bool :=
  match o with
  | None => false
  | Some r => row_truthy r
  end.

(** ** Events *)

(** How [sqlite3.connect] was called. *)
Inductive connect_target : Type :=
  | ConnectPath (db_path : string)
  | ConnectURI (uri : string).

Inductive stream : Type := Stdout | Stderr.

Inductive event : Type :=
  | EvPrint (to : stream) (line : string)
  | EvConnect (target : connect_target)
  | EvQuery (sql : string)
  | EvStat (path : string)
  | EvSleep (seconds : Z)
  | EvParserError (message : string)
  | EvClose.

Definition print (line : string) : event := EvPrint Stdout line.

(** ** Presentation *)

Definition display_default_message (message_row : option Row) : list event :=
  match message_row with
  | Some r =>
      if row_truthy r then
        let timestamp := py_or (Timestamp r) "unknown time" in
        let username := py_or (Username r) "unknown user" in
        let message := py_or (Message r) "no message" in
        [print ("[" ++ py_str timestamp ++ "][" ++ py_str username ++ "] "
                ++ py_str message)]
      else []
  | None => []
  end.

(** ** The store accessor *)

(** What [sqlite3.connect] does with a target: a handle, or [sqlite3.Error]. *)
Inductive connect_result : Type :=
  | Connected
  | ConnectRaises (e : string).

(** What [cursor.execute] followed by [cursor.fetchone] does: the first row
    of the result ([None] when the result is empty), or [sqlite3.Error]
    (missing table, malformed file, I/O error). *)
Inductive fetch_result : Type :=
  | Fetched (row : option Row)
  | FetchRaises (e : string).

(** What [os.path.getmtime] does: the modification time, a float, or
    [OSError] when the path cannot be stat'ed. *)
Inductive getmtime_result : Type :=
  | Mtime (t : spec_float)
  | RaisesOSError.

(** An open connection remembers how it was opened. *)
Record Conn : Type := mkConn { opened_as : connect_target }.

Definition read_only_uri (abs_path : string) : string :=
  "file:" ++ abs_path ++ "?mode=ro&immutable=1".

Definition connect_to_database
    (abspath : string -> string)
    (sqlite3_connect : connect_target -> connect_result)
    (db_path : string) (read_only : bool) : option Conn * list event :=
  let target :=
    if read_only then ConnectURI (read_only_uri (abspath db_path))
    else ConnectPath db_path in
  match sqlite3_connect target with
  | Connected => (Some (mkConn target), [EvConnect target])
  | ConnectRaises e =>
      (None, [EvConnect target; print ("Error connecting to database: " ++ e)])
  end.

Definition latest_sql : string :=
  "SELECT * FROM PrivateMessages ORDER BY Timestamp DESC LIMIT 1".

(** The two branches of the source's test on the column name print the same
    line. *)
Definition detail_line (kv : string * value) : event :=
  let (key, v) := kv in
  if (String.eqb key "Timestamp" && match v with VStr _ => true | _ => false end)%bool
  then print (key ++ ": " ++ py_str v)
  else print (key ++ ": " ++ py_str v).

(** [fetch] is the store's answer to the query at the time of the call.  The
    [except] branch has no [return]: the function falls off its end and
    gives [None]. *)
Definition get_most_recent_message (conn : Conn) (fetch : fetch_result)
    (show_details : bool) : option Row * list event :=
  match fetch with
  | Fetched row =>
      (row,
       EvQuery latest_sql ::
       (if (opt_row_truthy row && show_details)%bool then
          match row with
          | Some r =>
              print "Most recent entry from 'PrivateMessages' table:"
              :: map detail_line (row_items r)
          | None => []
          end
        else []))
  | FetchRaises e =>
      (None,
       EvQuery latest_sql ::
       (if show_details then [print ("Error querying PrivateMessages: " ++ e)]
        else []))
  end.

(** ** The change sentinel *)

Definition get_wal_modtime (wal_path : string) (stat : getmtime_result)
    : option spec_float * list event :=
  match stat with
  | Mtime t => (Some t, [EvStat wal_path])
  | RaisesOSError => (None, [EvStat wal_path])
  end.

(** Python's [!=] on two results of [get_wal_modtime]: [None] equals only
    [None], and two floats are compared as IEEE-754 numbers. *)
Definition modtime_ne (a b : option spec_float) : bool :=
  match a, b with
  | None, None => false
  | Some x, Some y => negb (SFeqb x y)
  | _, _ => true
  end.

(** The floats [os.path.getmtime] can return: a file time is a number, never
    NaN, an infinity or the negative zero. *)
Definition is_file_time (t : spec_float) : bool :=
  match t with
  | S754_zero false => true
  | S754_finite _ _ _ => true
  | _ => false
  end.

Definition sample_ok (s : option spec_float) : bool :=
  match s with
  | None => true
  | Some t => is_file_time t
  end.

(** ** Paths *)

Fixpoint ends_with_sep (s : string) : bool :=
  match s with
  | EmptyString => false
  | String c EmptyString => Ascii.eqb c "/"%char
  | String _ rest => ends_with_sep rest
  end.

(** [os.path.join(a, b)] of [posixpath], for a [b] that does not start with
    the separator. *)
Definition os_path_join (a b : string) : string :=
  if (String.eqb a "" || ends_with_sep a)%bool then a ++ b else a ++ "/" ++ b.

(** ** The watch loop *)

Record WatchState : Type := mkWatchState {
  last_timestamp : value;
  last_wal_modtime : option spec_float;
  poll_count : Z
}.

(** What one iteration of the loop meets: the state of the companion file
    and the answer the store would give to a query. *)
Record TickObs : Type := mkTickObs {
  obs_wal : getmtime_result;
  obs_store : fetch_result
}.

(** One iteration of [while True]. *)
Definition tick (conn : Conn) (wal_path : string) (st : WatchState)
    (obs : TickObs) : WatchState * list event :=
  let poll_count' := poll_count st + 1 in
  let (current_wal_modtime, ev_stat) := get_wal_modtime wal_path (obs_wal obs) in
  if modtime_ne current_wal_modtime (last_wal_modtime st) then
    let last_wal_modtime' := current_wal_modtime in
    match current_wal_modtime with
    | Some _ =>
        let (current_message, ev_query) :=
          get_most_recent_message conn (obs_store obs) false in
        match current_message with
        | Some r =>
            if row_truthy r then
              let current_timestamp := Timestamp r in
              if value_ne current_timestamp (last_timestamp st) then
                (mkWatchState current_timestamp last_wal_modtime' poll_count',
                 (ev_stat ++ ev_query ++ display_default_message current_message
                  ++ [EvSleep 5])%list)
              else
                (mkWatchState (last_timestamp st) last_wal_modtime' poll_count',
                 (ev_stat ++ ev_query ++ [EvSleep 5])%list)
            else
              (mkWatchState (last_timestamp st) last_wal_modtime' poll_count',
               (ev_stat ++ ev_query ++ [EvSleep 5])%list)
        | None =>
            (mkWatchState (last_timestamp st) last_wal_modtime' poll_count',
             (ev_stat ++ ev_query ++ [EvSleep 5])%list)
        end
    | None =>
        (mkWatchState (last_timestamp st) last_wal_modtime' poll_count',
         (ev_stat ++ [EvSleep 5])%list)
    end
  else
    (mkWatchState (last_timestamp st) (last_wal_modtime st) poll_count',
     (ev_stat ++ [EvSleep 5])%list).

(** The loop over the iterations that complete before the interrupt. *)
Fixpoint watch_loop (conn : Conn) (wal_path : string) (st : WatchState)
    (ticks : list TickObs) : WatchState * list event :=
  match ticks with
  | [] => (st, [])
  | obs :: rest =>
      let (st', ev) := tick conn wal_path st obs in
      let (st'', ev') := watch_loop conn wal_path st' rest in
      (st'', (ev ++ ev')%list)
  end.

(** How [watch_mode] leaves: the early [return] on an empty store, or the
    [KeyboardInterrupt] handler after the loop. *)
Inductive watch_exit : Type :=
  | NoMessages
  | Interrupted (final : WatchState).

(** [first] and [wal_first] are met before the loop, [ticks] inside it; the
    interrupt arrives once [ticks] is used up. *)
Definition watch_mode (conn : Conn) (db_dir : string) (first : fetch_result)
    (wal_first : getmtime_result) (ticks : list TickObs)
    : watch_exit * list event :=
  let wal_path := os_path_join db_dir "messaging.db-wal" in
  let (latest_message, ev_init) := get_most_recent_message conn first false in
  match latest_message with
  | Some r =>
      if row_truthy r then
        let (wal0, ev_wal) := get_wal_modtime wal_path wal_first in
        let st0 := mkWatchState (Timestamp r) wal0 0 in
        let (st, ev_loop) := watch_loop conn wal_path st0 ticks in
        (Interrupted st,
         (ev_init ++ ev_wal ++ ev_loop
          ++ [print (String "010" "Watch mode stopped.")])%list)
      else (NoMessages, (ev_init ++ [print "No messages found in database"])%list)
  | None => (NoMessages, (ev_init ++ [print "No messages found in database"])%list)
  end.

(** ** The command-line shell *)

(** The command line as [parser.parse_args()] returned it.  A command line
    that argparse itself turns down, and [--help], end the process inside
    [parse_args], before anything [main] does below. *)
Record Args : Type := mkArgs {
  args_directory : string;
  args_message : bool;
  args_id : bool;
  args_time : bool;
  args_debug : bool;
  args_watch : bool
}.

(** What the process meets outside itself: the file system, SQLite, and in
    order of time the store's first answer, the first state of the companion
    file and the loop's iterations up to the interrupt. *)
Record World : Type := mkWorld {
  os_path_exists : string -> bool;
  os_path_isdir : string -> bool;
  os_access_R_OK : string -> bool;
  os_path_abspath : string -> string;
  sqlite3_connect : connect_target -> connect_result;
  store_first : fetch_result;
  wal_first : getmtime_result;
  ticks : list TickObs
}.

(** [sys.exit] raises [SystemExit], which [except Exception] does not
    catch. *)
Inductive exn : Type :=
  | SystemExit (code : Z)
  | Exception (e : string).

Inductive outcome (A : Type) : Type :=
  | Return (a : A)
  | Raise (x : exn).
Arguments Return {A} a.
Arguments Raise {A} x.

(** The [else] branch of [main]'s [try]: the one-shot query. *)
Definition one_shot (conn : Conn) (args : Args) (first : fetch_result)
    : list event * outcome unit :=
  let (recent_message, ev) :=
    get_most_recent_message conn first (args_debug args) in
  let no_data :=
    ((ev ++ (if args_debug args
             then [print "No messages found in the database."] else []))%list,
     Raise (SystemExit 1)) in
  match recent_message with
  | Some r =>
      if row_truthy r then
        ((ev ++
          (if args_message args then [print (py_str (Message r))]
           else if args_id args then [print (py_str (Id r))]
           else if args_time args then [print (py_str (Timestamp r))]
           else if negb (args_debug args)
                then display_default_message recent_message
                else []))%list,
         Return tt)
      else no_data
  | None => no_data
  end.

Definition main (args : Args) (w : World) : list event * outcome unit :=
  let d := args_directory args in
  if negb (os_path_exists w d) then
    ([EvPrint Stderr ("Error: Directory '" ++ d ++ "' does not exist")],
     Raise (SystemExit 1))
  else if negb (os_path_isdir w d) then
    ([EvPrint Stderr ("Error: '" ++ d ++ "' is not a directory")],
     Raise (SystemExit 1))
  else if negb (os_access_R_OK w d) then
    ([EvPrint Stderr ("Error: Directory '" ++ d ++ "' is not readable")],
     Raise (SystemExit 1))
  else if (args_watch args
           && (args_message args || args_id args || args_time args
               || args_debug args))%bool then
    ([EvParserError "--watch/-w cannot be used with other flags"],
     Raise (SystemExit 2))
  else
    let db_path := os_path_join d "messaging.db" in
    let (conn, ev_conn) :=
      connect_to_database (os_path_abspath w) (sqlite3_connect w) db_path false in
    match conn with
    | None => (ev_conn, Raise (SystemExit 1))
    | Some c =>
        let (ev_try, res) :=
          if args_watch args then
            let (_, ev) :=
              watch_mode c d (store_first w) (wal_first w) (ticks w) in
            (ev, Return tt)
          else one_shot c args (store_first w) in
        let (ev_except, res') :=
          match res with
          | Raise (Exception e) =>
              (if args_debug args then [print ("An error occurred: " ++ e)]
               else [],
               Raise (SystemExit 1))
          | _ => ([], res)
          end in
        ((ev_conn ++ ev_try ++ ev_except ++ [EvClose])%list, res')
    end.

(** The status the process ends with. *)
Definition exit_status (res : outcome unit) : Z :=
  match res with
  | Return _ => 0
  | Raise (SystemExit code) => code
  | Raise (Exception _) => 1
  end.

(** ** Derived observations *)

(** The lines a trace writes to standard output. *)
Fixpoint stdout_lines (evs : list event) : list string :=
  match evs with
  | [] => []
  | EvPrint Stdout l :: rest => l :: stdout_lines rest
  | _ :: rest => stdout_lines rest
  end.

(** The number of store queries in a trace. *)
Fixpoint count_queries (evs : list event) : nat :=
  match evs with
  | [] => 0%nat
  | EvQuery _ :: rest => S (count_queries rest)
  | _ :: rest => count_queries rest
  end.

(** The targets [sqlite3.connect] was called with. *)
Fixpoint connect_targets (evs : list event) : list connect_target :=
  match evs with
  | [] => []
  | EvConnect t :: rest => t :: connect_targets rest
  | _ :: rest => connect_targets rest
  end.

Definition is_read_only (t : connect_target) : bool :=
  match t with
  | ConnectURI _ => true
  | ConnectPath _ => false
  end.

(** The number of times a trace stats the companion file. *)
Fixpoint count_stats (evs : list event) : nat :=
  match evs with
  | [] => 0%nat
  | EvStat _ :: rest => S (count_stats rest)
  | _ :: rest => count_stats rest
  end.

(** The Watch State of the specification: the two values the loop carries
    from one iteration to the next. *)
Definition watch_pair (st : WatchState) : value * option spec_float :=
  (last_timestamp st, last_wal_modtime st).

(** The sample an iteration takes. *)
Definition sample_of (wal_path : string) (obs : TickObs) : option spec_float :=
  fst (get_wal_modtime wal_path (obs_wal obs)).

Definition stat_ok (g : getmtime_result) : bool :=
  match g with
  | Mtime t => is_file_time t
  | RaisesOSError => true
  end.

(** [main] gets as far as a query: the directory passes the three checks,
    the flags are compatible and [sqlite3.connect] gives a handle. *)
Definition opens_store (args : Args) (w : World) : bool :=
  (os_path_exists w (args_directory args)
   && os_path_isdir w (args_directory args)
   && os_access_R_OK w (args_directory args)
   && negb (args_watch args
            && (args_message args || args_id args || args_time args
                || args_debug args))
   && match sqlite3_connect w
              (ConnectPath (os_path_join (args_directory args) "messaging.db"))
      with
      | Connected => true
      | ConnectRaises _ => false
      end)%bool.

(** ** The specification's wording, for comparison with the code *)

(** Default format: a placeholder wherever the field is null. *)
Definition spec_field (v : value) (placeholder : string) : string :=
  match v with
  | VNone => placeholder
  | _ => py_str v
  end.

Definition spec_default_line (r : Row) : string :=
  "[" ++ spec_field (Timestamp r) "unknown time"
  ++ "][" ++ spec_field (Username r) "unknown user"
  ++ "] " ++ spec_field (Message r) "no message".

(** A field the code replaces: null, the empty text or the number zero. *)
Definition blank (v : value) : bool :=
  match v with
  | VNone => true
  | VStr EmptyString => true
  | VInt Z0 => true
  | _ => false
  end.

Definition shown_field (v : value) (placeholder : string) : string :=
  if blank v then placeholder else py_str v.

Definition default_line (r : Row) : string :=
  "[" ++ shown_field (Timestamp r) "unknown time"
  ++ "][" ++ shown_field (Username r) "unknown user"
  ++ "] " ++ shown_field (Message r) "no message".

(** "A query error during a tick is fatal": nothing happens in the loop
    after an iteration whose query failed. *)
Definition query_error_is_fatal : Prop :=
  forall conn wal_path st obs rest e,
    obs_store obs = FetchRaises e ->
    count_queries (snd (tick conn wal_path st obs)) = 1%nat ->
    snd (watch_loop conn wal_path st (obs :: rest))
    = snd (tick conn wal_path st obs).

(** "Every other failure is signalled distinctly from no data". *)
Definition errors_distinct_from_no_data : Prop :=
  forall conn e show_details,
    get_most_recent_message conn (FetchRaises e) show_details
    <> get_most_recent_message conn (Fetched None) show_details.

(** "The Watch State is mutated only by a tick that detects a real content
    change". *)
Definition state_mutated_only_on_content_change : Prop :=
  forall conn wal_path st obs,
    stdout_lines (snd (tick conn wal_path st obs)) = [] ->
    watch_pair (fst (tick conn wal_path st obs)) = watch_pair st.

(** "No data exits with status 1 in both modes". *)
Definition no_data_exits_1 : Prop :=
  forall args w,
    opens_store args w = true ->
    store_first w = Fetched None ->
    exit_status (snd (main args w)) = 1.

(** "One-shot invocations open the store read-only". *)
Definition one_shot_opens_read_only : Prop :=
  forall args w,
    args_watch args = false ->
    forallb is_read_only (connect_targets (fst (main args w))) = true.

(** "The default line puts a placeholder exactly where a field is null". *)
Definition default_format_as_specified : Prop :=
  forall r, display_default_message (Some r) = [print (spec_default_line r)].

(** ** Further observations on a trace *)

(** The lines a trace writes to standard error. *)
Definition stderr_lines (evs : list event) : list string :=
  flat_map (fun e => match e with EvPrint Stderr l => [l] | _ => [] end) evs.

(** The paths a trace stats. *)
Definition stat_paths (evs : list event) : list string :=
  flat_map (fun e => match e with EvStat p => [p] | _ => [] end) evs.

(** The durations a trace sleeps for. *)
Definition sleeps (evs : list event) : list Z :=
  flat_map (fun e => match e with EvSleep n => [n] | _ => [] end) evs.

(** The number of times a trace closes the connection. *)
Definition count_closes (evs : list event) : nat :=
  List.length (filter (fun e => match e with EvClose => true | _ => false end) evs).

(** What the code may do between opening and closing the connection: print
    to standard output, send the one SELECT, stat the companion file at
    [wal_path] and sleep for five seconds. *)
Definition inner_event_at (wal_path : string) (e : event) : bool :=
  match e with
  | EvPrint Stdout _ => true
  | EvQuery q => String.eqb q latest_sql
  | EvStat p => String.eqb p wal_path
  | EvSleep n => Z.eqb n 5
  | _ => false
  end.

(** The directory passes the three checks at the head of [main]. *)
Definition directory_ok (args : Args) (w : World) : bool :=
  (os_path_exists w (args_directory args)
   && os_path_isdir w (args_directory args)
   && os_access_R_OK w (args_directory args))%bool.

(** [--watch] together with one of the output flags. *)
Definition flags_conflict (args : Args) : bool :=
  (args_watch args
   && (args_message args || args_id args || args_time args
       || args_debug args))%bool.

(** The path [main] hands to [sqlite3.connect]. *)
Definition db_path_of (args : Args) : string :=
  os_path_join (args_directory args) "messaging.db".

(** The line of the detail view for one column. *)
Definition detail_text (kv : string * value) : string :=
  fst kv ++ ": " ++ py_str (snd kv).

(** The sentinel sample of an observation does not differ from [recorded]. *)
Definition sample_unchanged (wal_path : string) (recorded : option spec_float)
    (obs : TickObs) : bool :=
  negb (modtime_ne (sample_of wal_path obs) recorded).

(** The store's answer carries no message newer than [recorded]: no row, a
    failure, or a row with that very timestamp. *)
Definition answer_not_new (recorded : value) (obs : TickObs) : bool :=
  match obs_store obs with
  | Fetched (Some r) => value_eqb (Timestamp r) recorded
  | _ => true
  end.

(** ** Sample data *)

Definition alice_row : Row :=
  mkRow (VInt 1) (VStr "2024-01-01T00:00:00") (VStr "alice") (VStr "hi")
        [ColId; ColTimestamp; ColUsername; ColMessage].

Definition nulls_row : Row :=
  mkRow (VInt 2) (VStr "2024-01-01T00:00:01") VNone VNone
        [ColId; ColTimestamp; ColUsername; ColMessage].

Definition bob_row : Row :=
  mkRow (VInt 3) (VStr "2024-01-02T10:30:00") (VStr "bob") (VStr "yo")
        [ColId; ColTimestamp; ColUsername; ColMessage].

(** A row of a table that declares its columns in another order and has a
    column the code does not know. *)
Definition carol_row : Row :=
  mkRow (VInt 7) (VStr "2024-03-05T08:00:00") (VStr "carol") (VStr "hey")
        [ColUsername; ColId; ColTimestamp; ColOther "Direction" (VInt 1);
         ColMessage].

(** A world in which everything is in place. *)
Definition world_with (first : fetch_result) (wal0 : getmtime_result)
    (tks : list TickObs) : World :=
  mkWorld (fun _ => true) (fun _ => true) (fun _ => true)
          (fun p => "/srv/" ++ p) (fun _ => Connected) first wal0 tks.

Definition t100 : spec_float := S754_finite false 100 0.
Definition t200 : spec_float := S754_finite false 200 0.

Example display_alice :
  display_default_message (Some alice_row)
  = [print "[2024-01-01T00:00:00][alice] hi"].
Proof. reflexivity. Qed.

Example display_nulls :
  display_default_message (Some nulls_row)
  = [print "[2024-01-01T00:00:01][unknown user] no message"].
Proof. reflexivity. Qed.

Example main_default :
  main (mkArgs "data" false false false false false)
       (world_with (Fetched (Some alice_row)) RaisesOSError [])
  = ([EvConnect (ConnectPath "data/messaging.db"); EvQuery latest_sql;
      print "[2024-01-01T00:00:00][alice] hi"; EvClose],
     Return tt).
Proof. reflexivity. Qed.

(** The watch scenario of the specification: the companion file is absent
    for five iterations, then appears while the store holds a newer row. *)
Example watch_scenario :
  let quiet := mkTickObs RaisesOSError (Fetched (Some bob_row)) in
  let w := world_with (Fetched (Some alice_row)) RaisesOSError
             [quiet; quiet; quiet; quiet; quiet;
              mkTickObs (Mtime t100) (Fetched (Some bob_row))] in
  let res := main (mkArgs "data" false false false false true) w in
  stdout_lines (fst res)
  = ["[2024-01-02T10:30:00][bob] yo"; String "010" "Watch mode stopped."]
  /\ count_queries (fst res) = 2%nat
  /\ exit_status (snd res) = 0.
Proof. repeat split; reflexivity. Qed.

(** Two iterations on which the companion file changes while the latest
    message stays the seed's: two queries after the seed, nothing printed
    before the interrupt. *)
Example watch_false_positives :
  let w := world_with (Fetched (Some alice_row)) RaisesOSError
             [mkTickObs (Mtime t100) (Fetched (Some alice_row));
              mkTickObs (Mtime t200) (Fetched (Some alice_row))] in
  let res := main (mkArgs "data" false false false false true) w in
  stdout_lines (fst res) = [String "010" "Watch mode stopped."]
  /\ count_queries (fst res) = 3%nat.
Proof. split; reflexivity. Qed.

(** Why the samples are restricted to file times: Python's [!=] holds
    between a NaN and itself, and fails between the two zeros. *)
Example modtime_ne_outside_file_times :
  modtime_ne (Some S754_nan) (Some S754_nan) = true
  /\ modtime_ne (Some (S754_zero true)) (Some (S754_zero false)) = false.
Proof. split; reflexivity. Qed.

Example main_usage_error :
  main (mkArgs "data" true false false false true)
       (world_with (Fetched (Some alice_row)) RaisesOSError [])
  = ([EvParserError "--watch/-w cannot be used with other flags"],
     Raise (SystemExit 2)).
Proof. reflexivity. Qed.

Example main_debug :
  stdout_lines
    (fst (main (mkArgs "data" false false false true false)
               (world_with (Fetched (Some alice_row)) RaisesOSError [])))
  = ["Most recent entry from 'PrivateMessages' table:"; "Id: 1";
     "Timestamp: 2024-01-01T00:00:00"; "Username: alice"; "Message: hi"].
Proof. reflexivity. Qed.

Example main_debug_table_order :
  stdout_lines
    (fst (main (mkArgs "data" false false false true false)
               (world_with (Fetched (Some carol_row)) RaisesOSError [])))
  = ["Most recent entry from 'PrivateMessages' table:"; "Username: carol";
     "Id: 7"; "Timestamp: 2024-03-05T08:00:00"; "Direction: 1"; "Message: hey"].
Proof. reflexivity. Qed.

(** ** Basic facts *)

Lemma value_eqb_eq (a b : value) : value_eqb a b = true <-> a = b.
Proof.
  destruct a as [|x|x], b as [|y|y]; simpl; split; intro H;
    try discriminate; try reflexivity.
  - apply Z.eqb_eq in H. now subst.
  - injection H as ->. apply Z.eqb_refl.
  - apply String.eqb_eq in H. now subst.
  - injection H as ->. apply String.eqb_refl.
Qed.

Lemma value_ne_true (a b : value) : value_ne a b = true <-> a <> b.
Proof.
  unfold value_ne. rewrite negb_true_iff, <- not_true_iff_false.
  now rewrite value_eqb_eq.
Qed.

Lemma value_ne_false (a b : value) : value_ne a b = false <-> a = b.
Proof.
  unfold value_ne. rewrite negb_false_iff. apply value_eqb_eq.
Qed.

Lemma row_truthy_true (r : Row) : row_truthy r = true.
Proof. reflexivity. Qed.

Lemma SFeqb_file_time (a b : spec_float) :
  is_file_time a = true -> is_file_time b = true ->
  (SFeqb a b = true <-> a = b).
Proof.
  destruct a as [[|]|?| |sa ma ea], b as [[|]|?| |sb mb eb]; simpl;
    try discriminate; intros _ _; unfold SFeqb, SFcompare.
  - tauto.
  - destruct sb; split; discriminate.
  - destruct sa; split; discriminate.
  - change (Pos.compare_cont Eq ma mb) with (Pos.compare ma mb).
    destruct sa, sb; try (split; discriminate);
      destruct (Z.compare_spec ea eb) as [He|He|He];
      try (split; [discriminate | intro E; injection E; lia]);
      subst eb;
      destruct (Pos.compare_spec ma mb) as [Hm|Hm|Hm]; simpl;
      try (split; [discriminate | intro E; injection E; lia]);
      subst; tauto.
Qed.

Lemma modtime_ne_false (a b : option spec_float) :
  sample_ok a = true -> sample_ok b = true ->
  (modtime_ne a b = false <-> a = b).
Proof.
  destruct a as [x|], b as [y|]; simpl; intros Ha Hb.
  - rewrite negb_false_iff, (SFeqb_file_time x y Ha Hb).
    split; congruence.
  - split; discriminate.
  - split; discriminate.
  - tauto.
Qed.

Lemma modtime_ne_true (a b : option spec_float) :
  sample_ok a = true -> sample_ok b = true ->
  (modtime_ne a b = true <-> a <> b).
Proof.
  intros Ha Hb.
  rewrite <- (modtime_ne_false a b Ha Hb), not_false_iff_true. tauto.
Qed.

Lemma stdout_lines_app (a b : list event) :
  stdout_lines (a ++ b) = (stdout_lines a ++ stdout_lines b)%list.
Proof.
  induction a as [|[[|] l|t|q|p|n|m|] a IH]; simpl; rewrite ?IH; reflexivity.
Qed.

Lemma count_queries_app (a b : list event) :
  count_queries (a ++ b) = (count_queries a + count_queries b)%nat.
Proof.
  induction a as [|[[|] l|t|q|p|n|m|] a IH]; simpl; rewrite ?IH; reflexivity.
Qed.

Lemma count_stats_app (a b : list event) :
  count_stats (a ++ b) = (count_stats a + count_stats b)%nat.
Proof.
  induction a as [|[[|] l|t|q|p|n|m|] a IH]; simpl; rewrite ?IH; reflexivity.
Qed.

Lemma connect_targets_app (a b : list event) :
  connect_targets (a ++ b) = (connect_targets a ++ connect_targets b)%list.
Proof.
  induction a as [|[[|] l|t|q|p|n|m|] a IH]; simpl; rewrite ?IH; reflexivity.
Qed.

Lemma truthy_blank (v : value) : truthy v = negb (blank v).
Proof. destruct v as [|[|p|p]|[|c s]]; reflexivity. Qed.

Lemma py_or_shown (v : value) (placeholder : string) :
  py_str (py_or v placeholder) = shown_field v placeholder.
Proof.
  unfold py_or, shown_field. rewrite truthy_blank.
  destruct (blank v); reflexivity.
Qed.

Lemma display_default_line (r : Row) :
  display_default_message (Some r) = [print (default_line r)].
Proof.
  unfold display_default_message, default_line.
  rewrite row_truthy_true, !py_or_shown. reflexivity.
Qed.

(** Case analysis on one iteration: the sample, the sentinel test and the
    store's answer. *)
Ltac tick_cases obs st :=
  unfold tick, sample_of, get_wal_modtime, get_most_recent_message in *;
  destruct (obs_wal obs) as [t|];
  [ destruct (modtime_ne (Some t) (last_wal_modtime st)) eqn:Hne;
    [ destruct (obs_store obs) as [[r0|]|err] | ]
  | destruct (modtime_ne None (last_wal_modtime st)) eqn:Hne ];
  cbn [fst snd opt_row_truthy andb] in *;
  rewrite ?row_truthy_true in *; cbn [fst snd app] in *.

Lemma tick_sample_ok conn wal_path st obs :
  sample_ok (last_wal_modtime st) = true ->
  stat_ok (obs_wal obs) = true ->
  sample_ok (last_wal_modtime (fst (tick conn wal_path st obs))) = true.
Proof.
  intros Hst Hobs. tick_cases obs st;
    try destruct (value_ne (Timestamp r0) (last_timestamp st));
    simpl in *; assumption || reflexivity.
Qed.

Lemma watch_loop_cons conn wal_path st obs rest :
  watch_loop conn wal_path st (obs :: rest)
  = (fst (watch_loop conn wal_path (fst (tick conn wal_path st obs)) rest),
     (snd (tick conn wal_path st obs)
      ++ snd (watch_loop conn wal_path (fst (tick conn wal_path st obs)) rest))%list).
Proof.
  simpl. destruct (tick conn wal_path st obs) as [st' ev].
  simpl. destruct (watch_loop conn wal_path st' rest) as [st'' ev'].
  reflexivity.
Qed.

(** The recorded sentinel stays a sample the file system can give, all
    along the loop. *)
Lemma watch_loop_sample_ok conn wal_path ticks :
  forall st,
    sample_ok (last_wal_modtime st) = true ->
    forallb (fun obs => stat_ok (obs_wal obs)) ticks = true ->
    sample_ok (last_wal_modtime (fst (watch_loop conn wal_path st ticks))) = true.
Proof.
  induction ticks as [|obs rest IH]; intros st Hst Hall.
  - exact Hst.
  - simpl in Hall. apply andb_true_iff in Hall as [Hobs Hrest].
    rewrite watch_loop_cons. cbn [fst].
    apply IH; [now apply tick_sample_ok | exact Hrest].
Qed.

(** ** The claims *)

(** C3. The change detection of the loop, on two consecutive samples of the
    sentinel as [get_wal_modtime] gives them (a file time or the absent
    value [None]).  An iteration started with [previous] recorded and
    meeting [current] treats the pair as a change exactly when the two are
    unequal: if they are equal it leaves the recorded values alone and
    queries nothing, if they are unequal it records [current].  In the
    table: absent then absent is no change; absent then a time is a change
    (recorded, and followed by a query); a time then absent is a change
    (recorded, no query); two different times are a change; the same time
    twice is no change. *)
Theorem sentinel_change_table conn wal_path st obs timestamp n store
    (a b : spec_float) :
  sample_ok (last_wal_modtime st) = true ->
  stat_ok (obs_wal obs) = true ->
  is_file_time a = true -> is_file_time b = true -> a <> b ->
  let previous := last_wal_modtime st in
  let current := fst (get_wal_modtime wal_path (obs_wal obs)) in
  let step prev g :=
    tick conn wal_path (mkWatchState timestamp prev n) (mkTickObs g store) in
  let recorded prev g := last_wal_modtime (fst (step prev g)) in
  let asked prev g := count_queries (snd (step prev g)) in
  (modtime_ne current previous = true <-> current <> previous)
  /\ ((current = previous
       /\ watch_pair (fst (tick conn wal_path st obs)) = watch_pair st
       /\ count_queries (snd (tick conn wal_path st obs)) = 0%nat)
      \/ (current <> previous
          /\ last_wal_modtime (fst (tick conn wal_path st obs)) = current))
  /\ (modtime_ne None None = false
      /\ recorded None RaisesOSError = None
      /\ asked None RaisesOSError = 0%nat)
  /\ (modtime_ne (Some a) None = true
      /\ recorded None (Mtime a) = Some a
      /\ asked None (Mtime a) = 1%nat)
  /\ (modtime_ne None (Some a) = true
      /\ recorded (Some a) RaisesOSError = None
      /\ asked (Some a) RaisesOSError = 0%nat)
  /\ (modtime_ne (Some b) (Some a) = true
      /\ recorded (Some a) (Mtime b) = Some b
      /\ asked (Some a) (Mtime b) = 1%nat)
  /\ (modtime_ne (Some a) (Some a) = false
      /\ recorded (Some a) (Mtime a) = Some a
      /\ asked (Some a) (Mtime a) = 0%nat).
Proof.
  intros Hst Hobs Ha Hb Hab previous current step recorded asked.
  subst previous current step recorded asked.
  assert (Hcur : sample_ok (fst (get_wal_modtime wal_path (obs_wal obs))) = true).
  { unfold get_wal_modtime.
    destruct (obs_wal obs); simpl in *; [assumption | reflexivity]. }
  assert (Hba : modtime_ne (Some b) (Some a) = true).
  { apply modtime_ne_true; try assumption. congruence. }
  assert (Haa : modtime_ne (Some a) (Some a) = false).
  { now apply modtime_ne_false. }
  split; [now apply modtime_ne_true|].
  split.
  - pose proof (modtime_ne_true _ _ Hcur Hst) as Ht.
    pose proof (modtime_ne_false _ _ Hcur Hst) as Hf.
    tick_cases obs st;
      try destruct (value_ne (Timestamp r0) (last_timestamp st));
      cbn [fst snd last_wal_modtime watch_pair last_timestamp];
      try (apply Ht in Hne; right; split; [exact Hne | reflexivity]);
      apply Hf in Hne; left; repeat split; exact Hne.
  - unfold tick, get_wal_modtime, get_most_recent_message.
    cbn [obs_wal obs_store last_wal_modtime last_timestamp fst snd].
    rewrite Hba, Haa. cbn [modtime_ne].
    destruct store as [[r|]|e]; cbn [fst snd opt_row_truthy andb];
      rewrite ?row_truthy_true;
      try destruct (value_ne (Timestamp r) timestamp);
      rewrite ?display_default_line; repeat split.
Qed.

Lemma sentinel_change_table_witness :
  let conn := mkConn (ConnectPath "data/messaging.db") in
  let wal_path := "data/messaging.db-wal" in
  let st := mkWatchState (Timestamp alice_row) (Some t100) 0 in
  let obs := mkTickObs (Mtime t200) (Fetched (Some bob_row)) in
  let step prev g :=
    tick conn wal_path (mkWatchState (Timestamp alice_row) prev 3)
         (mkTickObs g (Fetched (Some bob_row))) in
  let recorded prev g := last_wal_modtime (fst (step prev g)) in
  let asked prev g := count_queries (snd (step prev g)) in
  (modtime_ne (Some t200) (Some t100) = true <-> Some t200 <> Some t100)
  /\ ((Some t200 = Some t100
       /\ watch_pair (fst (tick conn wal_path st obs)) = watch_pair st
       /\ count_queries (snd (tick conn wal_path st obs)) = 0%nat)
      \/ (Some t200 <> Some t100
          /\ last_wal_modtime (fst (tick conn wal_path st obs)) = Some t200))
  /\ (modtime_ne None None = false
      /\ recorded None RaisesOSError = None
      /\ asked None RaisesOSError = 0%nat)
  /\ (modtime_ne (Some t100) None = true
      /\ recorded None (Mtime t100) = Some t100
      /\ asked None (Mtime t100) = 1%nat)
  /\ (modtime_ne None (Some t100) = true
      /\ recorded (Some t100) RaisesOSError = None
      /\ asked (Some t100) RaisesOSError = 0%nat)
  /\ (modtime_ne (Some t200) (Some t100) = true
      /\ recorded (Some t100) (Mtime t200) = Some t200
      /\ asked (Some t100) (Mtime t200) = 1%nat)
  /\ (modtime_ne (Some t100) (Some t100) = false
      /\ recorded (Some t100) (Mtime t100) = Some t100
      /\ asked (Some t100) (Mtime t100) = 0%nat).
Proof.
  apply (sentinel_change_table
           (mkConn (ConnectPath "data/messaging.db")) "data/messaging.db-wal"
           (mkWatchState (Timestamp alice_row) (Some t100) 0)
           (mkTickObs (Mtime t200) (Fetched (Some bob_row)))
           (Timestamp alice_row) 3 (Fetched (Some bob_row)) t100 t200);
    try reflexivity.
  discriminate.
Defined.

(** C2. On every iteration of the loop, the store is queried (once) exactly
    when the sample differs from the recorded sentinel value and is not
    the absent value; when the sample equals the recorded value, or is
    absent, no query is issued. *)
Theorem query_iff_sentinel_changed_and_present conn wal_path st obs :
  sample_ok (last_wal_modtime st) = true ->
  stat_ok (obs_wal obs) = true ->
  let current := sample_of wal_path obs in
  let queries := count_queries (snd (tick conn wal_path st obs)) in
  (queries = 1%nat <-> current <> last_wal_modtime st /\ current <> None)
  /\ (queries = 0%nat <-> current = last_wal_modtime st \/ current = None).
Proof.
  intros Hst Hobs current queries. subst current queries.
  assert (Hcur : sample_ok (sample_of wal_path obs) = true).
  { unfold sample_of, get_wal_modtime.
    destruct (obs_wal obs); simpl in *; [assumption | reflexivity]. }
  pose proof (modtime_ne_true _ _ Hcur Hst) as Ht.
  pose proof (modtime_ne_false _ _ Hcur Hst) as Hf.
  tick_cases obs st;
    try destruct (value_ne (Timestamp r0) (last_timestamp st));
    rewrite ?count_queries_app; simpl;
    try (apply Ht in Hne); try (apply Hf in Hne);
    (split; split;
     [ intros; try discriminate; split; congruence
     | intros [H1 H2]; try reflexivity; congruence
     | intros; try discriminate; auto
     | intros [H1|H1]; try reflexivity; congruence ]).
Qed.

Lemma query_iff_sentinel_changed_and_present_witness :
  let st := mkWatchState (Timestamp alice_row) None 0 in
  let obs := mkTickObs (Mtime t100) (Fetched (Some bob_row)) in
  let current := sample_of "data/messaging.db-wal" obs in
  let queries :=
    count_queries
      (snd (tick (mkConn (ConnectPath "data/messaging.db"))
                 "data/messaging.db-wal" st obs)) in
  (queries = 1%nat <-> current <> last_wal_modtime st /\ current <> None)
  /\ (queries = 0%nat <-> current = last_wal_modtime st \/ current = None).
Proof.
  apply (query_iff_sentinel_changed_and_present
           (mkConn (ConnectPath "data/messaging.db")) "data/messaging.db-wal"
           (mkWatchState (Timestamp alice_row) None 0)
           (mkTickObs (Mtime t100) (Fetched (Some bob_row))));
    reflexivity.
Defined.

(** C1. On an iteration that queries the store and gets a message back, the
    message is emitted exactly when its timestamp differs from the recorded
    one: if it differs, the line of that message is printed and the
    recorded timestamp becomes the new one; if it is equal, nothing is
    printed and the recorded timestamp stays. *)
Theorem emission_iff_timestamp_differs conn wal_path st obs r :
  count_queries (snd (tick conn wal_path st obs)) <> 0%nat ->
  obs_store obs = Fetched (Some r) ->
  let st' := fst (tick conn wal_path st obs) in
  let out := stdout_lines (snd (tick conn wal_path st obs)) in
  (out <> [] <-> Timestamp r <> last_timestamp st)
  /\ ((Timestamp r <> last_timestamp st
       /\ out = stdout_lines (display_default_message (Some r))
       /\ out = [default_line r]
       /\ last_timestamp st' = Timestamp r)
      \/ (Timestamp r = last_timestamp st
          /\ out = []
          /\ last_timestamp st' = last_timestamp st)).
Proof.
  intros Hq Hr st' out. subst st' out. revert Hq.
  unfold tick, get_wal_modtime, get_most_recent_message.
  rewrite Hr.
  destruct (obs_wal obs) as [t|]; cbn [fst snd];
    [ destruct (modtime_ne (Some t) (last_wal_modtime st))
    | destruct (modtime_ne None (last_wal_modtime st)) ];
    cbn [fst snd opt_row_truthy andb]; rewrite ?row_truthy_true;
    try (intro Hq; exfalso; apply Hq; reflexivity).
  intros _.
  destruct (value_ne (Timestamp r) (last_timestamp st)) eqn:Hts; cbn [fst snd].
  - apply value_ne_true in Hts.
    rewrite display_default_line. simpl.
    split; [split; [intros _; exact Hts | intros _; discriminate] | ].
    left. repeat split. exact Hts.
  - apply value_ne_false in Hts. simpl.
    split; [split; [intro H; now elim H | intro H; now elim H] | ].
    right. repeat split. exact Hts.
Qed.

Lemma emission_iff_timestamp_differs_witness :
  let conn := mkConn (ConnectPath "data/messaging.db") in
  let st := mkWatchState (Timestamp alice_row) None 0 in
  let obs := mkTickObs (Mtime t100) (Fetched (Some bob_row)) in
  let st' := fst (tick conn "data/messaging.db-wal" st obs) in
  let out := stdout_lines (snd (tick conn "data/messaging.db-wal" st obs)) in
  (out <> [] <-> Timestamp bob_row <> last_timestamp st)
  /\ ((Timestamp bob_row <> last_timestamp st
       /\ out = stdout_lines (display_default_message (Some bob_row))
       /\ out = [default_line bob_row]
       /\ last_timestamp st' = Timestamp bob_row)
      \/ (Timestamp bob_row = last_timestamp st
          /\ out = []
          /\ last_timestamp st' = last_timestamp st)).
Proof.
  apply (emission_iff_timestamp_differs
           (mkConn (ConnectPath "data/messaging.db")) "data/messaging.db-wal"
           (mkWatchState (Timestamp alice_row) None 0)
           (mkTickObs (Mtime t100) (Fetched (Some bob_row))) bob_row).
  - simpl. discriminate.
  - reflexivity.
Defined.

(** C10. When on an iteration the sentinel has changed to a present value
    and the query then gives no row (the table is empty, or the query
    failed), the iteration prints nothing, keeps the recorded timestamp,
    records the new sentinel value all the same, and the loop goes on with
    the next iteration. *)
Theorem no_row_tick_keeps_timestamp conn wal_path st obs t rest :
  obs_wal obs = Mtime t ->
  modtime_ne (Some t) (last_wal_modtime st) = true ->
  fst (get_most_recent_message conn (obs_store obs) false) = None ->
  let st' := fst (tick conn wal_path st obs) in
  let ev := snd (tick conn wal_path st obs) in
  stdout_lines ev = []
  /\ count_queries ev = 1%nat
  /\ last_timestamp st' = last_timestamp st
  /\ last_wal_modtime st' = Some t
  /\ watch_loop conn wal_path st (obs :: rest)
     = (fst (watch_loop conn wal_path st' rest),
        (ev ++ snd (watch_loop conn wal_path st' rest))%list).
Proof.
  intros Hwal Hne Hnone st' ev. subst st' ev.
  rewrite watch_loop_cons.
  unfold tick, get_wal_modtime. rewrite Hwal, Hne.
  destruct (obs_store obs) as [[r|]|e]; simpl in Hnone; try discriminate;
    simpl; repeat split.
Qed.

Lemma no_row_tick_keeps_timestamp_witness :
  let conn := mkConn (ConnectPath "data/messaging.db") in
  let st := mkWatchState (Timestamp alice_row) None 0 in
  let obs := mkTickObs (Mtime t100) (FetchRaises "disk I/O error") in
  let rest := [mkTickObs (Mtime t200) (Fetched (Some bob_row))] in
  let st' := fst (tick conn "data/messaging.db-wal" st obs) in
  let ev := snd (tick conn "data/messaging.db-wal" st obs) in
  stdout_lines ev = []
  /\ count_queries ev = 1%nat
  /\ last_timestamp st' = last_timestamp st
  /\ last_wal_modtime st' = Some t100
  /\ watch_loop conn "data/messaging.db-wal" st (obs :: rest)
     = (fst (watch_loop conn "data/messaging.db-wal" st' rest),
        (ev ++ snd (watch_loop conn "data/messaging.db-wal" st' rest))%list).
Proof.
  apply (no_row_tick_keeps_timestamp
           (mkConn (ConnectPath "data/messaging.db")) "data/messaging.db-wal"
           (mkWatchState (Timestamp alice_row) None 0)
           (mkTickObs (Mtime t100) (FetchRaises "disk I/O error")) t100
           [mkTickObs (Mtime t200) (Fetched (Some bob_row))]);
    reflexivity.
Defined.

Lemma tick_count_stats conn wal_path st obs :
  count_stats (snd (tick conn wal_path st obs)) = 1%nat.
Proof.
  tick_cases obs st;
    try destruct (value_ne (Timestamp r0) (last_timestamp st));
    rewrite ?display_default_line; reflexivity.
Qed.

Lemma watch_loop_count_stats conn wal_path ticks :
  forall st,
    count_stats (snd (watch_loop conn wal_path st ticks)) = List.length ticks.
Proof.
  induction ticks as [|obs rest IH]; intro st.
  - reflexivity.
  - rewrite watch_loop_cons. cbn [snd].
    rewrite count_stats_app, tick_count_stats, IH. reflexivity.
Qed.

Lemma tick_connect_targets conn wal_path st obs :
  connect_targets (snd (tick conn wal_path st obs)) = [].
Proof.
  tick_cases obs st;
    try destruct (value_ne (Timestamp r0) (last_timestamp st));
    rewrite ?display_default_line; reflexivity.
Qed.

Lemma watch_loop_connect_targets conn wal_path ticks :
  forall st, connect_targets (snd (watch_loop conn wal_path st ticks)) = [].
Proof.
  induction ticks as [|obs rest IH]; intro st.
  - reflexivity.
  - rewrite watch_loop_cons. cbn [snd].
    rewrite connect_targets_app, tick_connect_targets, IH. reflexivity.
Qed.

Lemma watch_mode_connect_targets conn db_dir first wal0 ticks :
  connect_targets (snd (watch_mode conn db_dir first wal0 ticks)) = [].
Proof.
  unfold watch_mode, get_most_recent_message, get_wal_modtime.
  destruct first as [[r|]|e]; cbn [fst snd opt_row_truthy andb];
    rewrite ?row_truthy_true; try reflexivity.
  pose proof (watch_loop_connect_targets conn
                (os_path_join db_dir "messaging.db-wal") ticks) as Hloop.
  destruct wal0 as [t|];
    match goal with
    | |- context [watch_loop ?c ?p ?s ?l] =>
        specialize (Hloop s); destruct (watch_loop c p s l) as [st ev]
    end;
    cbn [fst snd] in *; rewrite !connect_targets_app, Hloop; reflexivity.
Qed.

Lemma detail_line_print (kv : string * value) :
  detail_line kv = print (fst kv ++ ": " ++ py_str (snd kv)).
Proof.
  destruct kv as [key v]. unfold detail_line. cbn [fst snd].
  destruct (String.eqb key "Timestamp" && _)%bool; reflexivity.
Qed.

Lemma detail_lines_connect_targets (l : list (string * value)) :
  connect_targets (map detail_line l) = [].
Proof.
  induction l as [|kv l IH]; [reflexivity|].
  cbn [map]. rewrite detail_line_print. exact IH.
Qed.

Lemma one_shot_connect_targets conn args first :
  connect_targets (fst (one_shot conn args first)) = [].
Proof.
  unfold one_shot, get_most_recent_message.
  destruct first as [[r|]|e]; cbn [fst snd opt_row_truthy andb];
    rewrite ?row_truthy_true, ?display_default_line;
    destruct (args_debug args), (args_message args), (args_id args),
      (args_time args);
    cbn [fst snd andb negb]; rewrite ?connect_targets_app;
    cbn [connect_targets print app];
    rewrite ?detail_lines_connect_targets; reflexivity.
Qed.

(** C6, as stated, fails: an iteration on which the companion file has
    appeared while the latest message is the one already seen prints
    nothing, yet it replaces the recorded sentinel value. *)
Lemma sentinel_recorded_without_content_change :
  ~ state_mutated_only_on_content_change.
Proof.
  intro H.
  specialize (H (mkConn (ConnectPath "data/messaging.db"))
                "data/messaging.db-wal"
                (mkWatchState (Timestamp alice_row) None 0)
                (mkTickObs (Mtime t100) (Fetched (Some alice_row)))
                eq_refl).
  discriminate H.
Qed.

(** C6, amended. The loop starts from the timestamp of the seed query and
    one sample of the sentinel.  After that the recorded timestamp changes
    only on an iteration that gets a message with a different timestamp,
    which it then prints; the recorded sentinel becomes the current sample
    on every iteration whose sample differs from it, whatever the store
    holds; and an iteration whose sample does not differ leaves both
    unchanged. *)
Theorem watch_state_updates conn wal_path db_dir st obs r wal0 :
  let st' := fst (tick conn wal_path st obs) in
  let ev := snd (tick conn wal_path st obs) in
  let current := sample_of wal_path obs in
  fst (watch_mode conn db_dir (Fetched (Some r)) wal0 [])
  = Interrupted
      (mkWatchState (Timestamp r)
         (fst (get_wal_modtime (os_path_join db_dir "messaging.db-wal") wal0))
         0)
  /\ last_wal_modtime st'
     = (if modtime_ne current (last_wal_modtime st) then current
        else last_wal_modtime st)
  /\ (last_timestamp st' = last_timestamp st
      \/ exists m, obs_store obs = Fetched (Some m)
                   /\ Timestamp m <> last_timestamp st
                   /\ last_timestamp st' = Timestamp m
                   /\ stdout_lines ev = [default_line m])
  /\ (modtime_ne current (last_wal_modtime st) = true
      \/ watch_pair st' = watch_pair st).
Proof.
  intros st' ev current. subst st' ev current. split.
  - unfold watch_mode, get_most_recent_message, get_wal_modtime.
    destruct wal0; reflexivity.
  - tick_cases obs st;
      try (destruct (value_ne (Timestamp r0) (last_timestamp st)) eqn:Hts);
      rewrite ?display_default_line, ?Hne; cbn [fst snd last_timestamp
        last_wal_modtime watch_pair];
      repeat split; auto.
    right. exists r0. apply value_ne_true in Hts. repeat split. exact Hts.
Qed.

(** C4, as stated, fails: after an iteration whose query raised, the loop
    stats and queries again on the next iteration. *)
Lemma query_error_does_not_stop_loop :
  ~ query_error_is_fatal
  /\ (let failing :=
         mkTickObs (Mtime t100) (FetchRaises "no such table: PrivateMessages") in
       let w := world_with (Fetched (Some alice_row)) RaisesOSError
                  [failing; mkTickObs (Mtime t200) (Fetched (Some bob_row))] in
       let res := main (mkArgs "data" false false false false true) w in
       stdout_lines (fst res)
       = ["[2024-01-02T10:30:00][bob] yo"; String "010" "Watch mode stopped."]
       /\ count_queries (fst res) = 3%nat
       /\ exit_status (snd res) = 0).
Proof.
  split; [|repeat split].
  intro H.
  specialize (H (mkConn (ConnectPath "data/messaging.db"))
                "data/messaging.db-wal"
                (mkWatchState (Timestamp alice_row) None 0)
                (mkTickObs (Mtime t100)
                           (FetchRaises "no such table: PrivateMessages"))
                [mkTickObs (Mtime t200) (Fetched (Some bob_row))]
                "no such table: PrivateMessages" eq_refl eq_refl).
  discriminate H.
Qed.

(** C4, amended. A query error during an iteration is caught inside the
    accessor, which reports nothing in watch mode and gives the no-data
    result; the iteration prints nothing and keeps the recorded timestamp,
    and the loop goes on, polling on every later iteration. *)
Theorem query_error_tick_continues conn wal_path st obs rest e :
  obs_store obs = FetchRaises e ->
  let st' := fst (tick conn wal_path st obs) in
  let ev := snd (tick conn wal_path st obs) in
  get_most_recent_message conn (obs_store obs) false
  = (None, [EvQuery latest_sql])
  /\ stdout_lines ev = []
  /\ last_timestamp st' = last_timestamp st
  /\ watch_loop conn wal_path st (obs :: rest)
     = (fst (watch_loop conn wal_path st' rest),
        (ev ++ snd (watch_loop conn wal_path st' rest))%list)
  /\ count_stats (snd (watch_loop conn wal_path st (obs :: rest)))
     = S (List.length rest).
Proof.
  intros He st' ev. subst st' ev.
  rewrite watch_loop_count_stats, watch_loop_cons, He.
  repeat split; try reflexivity;
    unfold tick, get_wal_modtime; rewrite He;
    destruct (obs_wal obs) as [t|]; cbn [fst snd];
    [ destruct (modtime_ne (Some t) (last_wal_modtime st))
    | destruct (modtime_ne None (last_wal_modtime st))
    | destruct (modtime_ne (Some t) (last_wal_modtime st))
    | destruct (modtime_ne None (last_wal_modtime st)) ];
    reflexivity.
Qed.

Lemma query_error_tick_continues_witness :
  let conn := mkConn (ConnectPath "data/messaging.db") in
  let st := mkWatchState (Timestamp alice_row) None 0 in
  let obs := mkTickObs (Mtime t100) (FetchRaises "disk I/O error") in
  let rest := [mkTickObs (Mtime t200) (Fetched (Some bob_row))] in
  let st' := fst (tick conn "data/messaging.db-wal" st obs) in
  let ev := snd (tick conn "data/messaging.db-wal" st obs) in
  get_most_recent_message conn (obs_store obs) false
  = (None, [EvQuery latest_sql])
  /\ stdout_lines ev = []
  /\ last_timestamp st' = last_timestamp st
  /\ watch_loop conn "data/messaging.db-wal" st (obs :: rest)
     = (fst (watch_loop conn "data/messaging.db-wal" st' rest),
        (ev ++ snd (watch_loop conn "data/messaging.db-wal" st' rest))%list)
  /\ count_stats (snd (watch_loop conn "data/messaging.db-wal" st (obs :: rest)))
     = S (List.length rest).
Proof.
  apply (query_error_tick_continues
           (mkConn (ConnectPath "data/messaging.db")) "data/messaging.db-wal"
           (mkWatchState (Timestamp alice_row) None 0)
           (mkTickObs (Mtime t100) (FetchRaises "disk I/O error"))
           [mkTickObs (Mtime t200) (Fetched (Some bob_row))]
           "disk I/O error").
  reflexivity.
Defined.

Lemma one_shot_outcome conn args first :
  snd (one_shot conn args first) = Return tt
  \/ snd (one_shot conn args first) = Raise (SystemExit 1).
Proof.
  unfold one_shot, get_most_recent_message.
  destruct first as [[r|]|e]; cbn [fst snd]; rewrite ?row_truthy_true;
    cbn [snd]; auto.
Qed.

(** What [main] does once the directory checks, the flag check and the
    connection have gone through. *)
Lemma main_opens args w :
  opens_store args w = true ->
  main args w
  = let d := args_directory args in
    let target := ConnectPath (os_path_join d "messaging.db") in
    let c := mkConn target in
    if args_watch args then
      ((EvConnect target
        :: snd (watch_mode c d (store_first w) (wal_first w) (ticks w))
           ++ [EvClose])%list,
       Return tt)
    else
      ((EvConnect target :: fst (one_shot c args (store_first w))
        ++ [EvClose])%list,
       snd (one_shot c args (store_first w))).
Proof.
  unfold opens_store. rewrite !andb_true_iff.
  intros [[[[Hex Hdir] Hacc] Hflags] Hconn].
  unfold main, connect_to_database.
  rewrite Hex, Hdir, Hacc. cbn [negb].
  apply negb_true_iff in Hflags. rewrite Hflags.
  destruct (sqlite3_connect w
              (ConnectPath (os_path_join (args_directory args) "messaging.db")));
    [clear Hconn | discriminate Hconn].
  cbv zeta. destruct (args_watch args).
  - destruct (watch_mode _ _ _ _ _) as [ex ev]. reflexivity.
  - destruct (one_shot_outcome
                (mkConn (ConnectPath
                           (os_path_join (args_directory args) "messaging.db")))
                args (store_first w)) as [Hres|Hres];
      destruct (one_shot _ _ _) as [ev res]; cbn [fst snd] in *; subst res;
      reflexivity.
Qed.

(** C5, as stated, fails: with details off, a failed query and an empty
    table give the caller the very same result. *)
Lemma query_error_looks_like_no_data : ~ errors_distinct_from_no_data.
Proof.
  intro H.
  apply (H (mkConn (ConnectPath "data/messaging.db"))
           "no such table: PrivateMessages" false).
  reflexivity.
Qed.

(** C5, amended. On a store with zero rows the accessor returns the absent
    value [None] and raises nothing.  On a query failure (missing table,
    malformed schema, I/O error) it returns [None] as well: the failure is
    written to standard output when details were asked for, and otherwise
    the call cannot be told from the no-data one. *)
Theorem accessor_no_data_and_errors conn show_details e :
  get_most_recent_message conn (Fetched None) show_details
  = (None, [EvQuery latest_sql])
  /\ fst (get_most_recent_message conn (FetchRaises e) show_details) = None
  /\ stdout_lines (snd (get_most_recent_message conn (FetchRaises e) show_details))
     = (if show_details then ["Error querying PrivateMessages: " ++ e] else [])
  /\ get_most_recent_message conn (FetchRaises e) false
     = get_most_recent_message conn (Fetched None) false.
Proof.
  unfold get_most_recent_message. destruct show_details; repeat split.
Qed.

(** C7, as stated, fails: in watch mode an empty store ends the process
    with status 0. *)
Lemma watch_no_data_exits_0 : ~ no_data_exits_1.
Proof.
  intro H.
  specialize (H (mkArgs "data" false false false false true)
                (world_with (Fetched None) RaisesOSError [])
                eq_refl eq_refl).
  discriminate H.
Qed.

(** C7, amended. When the store opens and holds zero rows, a one-shot
    invocation exits with status 1 (saying so only under [--debug]); in
    watch mode the process prints "No messages found in database", never
    enters the loop and ends normally, with status 0. *)
Theorem no_data_exit_status args w :
  opens_store args w = true ->
  store_first w = Fetched None ->
  let res := main args w in
  if args_watch args then
    exit_status (snd res) = 0
    /\ stdout_lines (fst res) = ["No messages found in database"]
    /\ count_stats (fst res) = 0%nat
    /\ count_queries (fst res) = 1%nat
  else
    exit_status (snd res) = 1
    /\ stdout_lines (fst res)
       = (if args_debug args then ["No messages found in the database."]
          else []).
Proof.
  intros Hopen Hfirst res. subst res.
  rewrite (main_opens args w Hopen), Hfirst. cbv zeta.
  destruct (args_watch args).
  - repeat split.
  - unfold one_shot, get_most_recent_message. cbn [fst snd].
    destruct (args_debug args); repeat split.
Qed.

Example no_data_watch_run :
  let args := mkArgs "data" false false false false true in
  let w := world_with (Fetched None) (Mtime t100)
             [mkTickObs (Mtime t200) (Fetched (Some bob_row))] in
  exit_status (snd (main args w)) = 0
  /\ stdout_lines (fst (main args w)) = ["No messages found in database"]
  /\ count_stats (fst (main args w)) = 0%nat
  /\ count_queries (fst (main args w)) = 1%nat.
Proof. repeat split. Qed.

Lemma no_data_exit_status_witness :
  let args := mkArgs "data" false false false false false in
  let w := world_with (Fetched None) RaisesOSError [] in
  exit_status (snd (main args w)) = 1
  /\ stdout_lines (fst (main args w)) = [].
Proof.
  apply (no_data_exit_status
           (mkArgs "data" false false false false false)
           (world_with (Fetched None) RaisesOSError []));
    reflexivity.
Defined.

(** C8, as stated, fails: a message whose body is the empty text is shown
    with the placeholder of a missing body. *)
Lemma empty_body_gets_placeholder : ~ default_format_as_specified.
Proof.
  intro H.
  specialize (H (mkRow (VInt 4) (VStr "2024-01-01T00:00:00") (VStr "alice")
                       (VStr "")
                       [ColId; ColTimestamp; ColUsername; ColMessage])).
  discriminate H.
Qed.

(** C8, amended. The default one-line format is
    [[<timestamp>][<sender>] <body>], with the placeholders "unknown time",
    "unknown user" and "no message" standing in for a timestamp, sender or
    body that is null or empty (a null, an empty text, a zero); the line is
    always well formed.  The row of alice gives exactly
    [[2024-01-01T00:00:00][alice] hi], and a row with null sender and body
    gives a line with both placeholders. *)
Theorem default_format_line r :
  display_default_message (Some r)
  = [print ("[" ++ shown_field (Timestamp r) "unknown time"
            ++ "][" ++ shown_field (Username r) "unknown user"
            ++ "] " ++ shown_field (Message r) "no message")]
  /\ (blank (Timestamp r) || blank (Username r) || blank (Message r) = false
      -> display_default_message (Some r) = [print (spec_default_line r)])
  /\ display_default_message (Some alice_row)
     = [print "[2024-01-01T00:00:00][alice] hi"]
  /\ display_default_message (Some nulls_row)
     = [print "[2024-01-01T00:00:01][unknown user] no message"].
Proof.
  rewrite display_default_line. repeat split.
  rewrite !orb_false_iff. intros [[Ht Hu] Hm].
  unfold default_line, spec_default_line, shown_field, spec_field.
  rewrite Ht, Hu, Hm.
  destruct (Timestamp r), (Username r), (Message r);
    simpl in *; try discriminate; reflexivity.
Qed.

Lemma default_format_line_witness :
  display_default_message (Some bob_row)
  = [print ("[" ++ shown_field (Timestamp bob_row) "unknown time"
            ++ "][" ++ shown_field (Username bob_row) "unknown user"
            ++ "] " ++ shown_field (Message bob_row) "no message")]
  /\ display_default_message (Some bob_row) = [print (spec_default_line bob_row)].
Proof.
  destruct (default_format_line bob_row) as [Hline [Hspec _]].
  split; [exact Hline | apply Hspec; reflexivity].
Defined.

(** ** Further properties of the loop *)

Lemma stat_paths_app (a b : list event) :
  stat_paths (a ++ b) = (stat_paths a ++ stat_paths b)%list.
Proof. apply flat_map_app. Qed.

Lemma sleeps_app (a b : list event) :
  sleeps (a ++ b) = (sleeps a ++ sleeps b)%list.
Proof. apply flat_map_app. Qed.

Lemma stderr_lines_app (a b : list event) :
  stderr_lines (a ++ b) = (stderr_lines a ++ stderr_lines b)%list.
Proof. apply flat_map_app. Qed.

Lemma count_closes_app (a b : list event) :
  count_closes (a ++ b) = (count_closes a + count_closes b)%nat.
Proof. unfold count_closes. now rewrite filter_app, length_app. Qed.

(** Case analysis on one iteration, down to the timestamp test. *)
Ltac tick_all obs st :=
  tick_cases obs st;
  try match goal with
      | |- context [value_ne (Timestamp ?r) (last_timestamp st)] =>
          destruct (value_ne (Timestamp r) (last_timestamp st)) eqn:Hts
      end;
  rewrite ?display_default_line; cbn [fst snd app].

Lemma tick_shape conn wal_path st obs :
  stat_paths (snd (tick conn wal_path st obs)) = [wal_path]
  /\ sleeps (snd (tick conn wal_path st obs)) = [5]
  /\ poll_count (fst (tick conn wal_path st obs)) = poll_count st + 1.
Proof. tick_all obs st; repeat split. Qed.

Lemma tick_bounds conn wal_path st obs :
  (List.length (stdout_lines (snd (tick conn wal_path st obs)))
   <= count_queries (snd (tick conn wal_path st obs)) <= 1)%nat.
Proof. tick_all obs st; simpl; lia. Qed.

(** After [n] iterations there were [n] stats of the path the loop was
    given and [n] sleeps of 5, and the counter has grown by [n]. *)
Lemma watch_loop_shape conn wal_path ticks :
  forall st,
    let n := List.length ticks in
    stat_paths (snd (watch_loop conn wal_path st ticks)) = repeat wal_path n
    /\ sleeps (snd (watch_loop conn wal_path st ticks)) = repeat 5 n
    /\ poll_count (fst (watch_loop conn wal_path st ticks))
       = poll_count st + Z.of_nat n.
Proof.
  induction ticks as [|obs rest IH]; intro st.
  - simpl. repeat split. lia.
  - destruct (tick_shape conn wal_path st obs) as [Hp [Hs Hc]].
    destruct (IH (fst (tick conn wal_path st obs))) as [IHp [IHs IHc]].
    rewrite watch_loop_cons. cbn [fst snd List.length repeat].
    rewrite stat_paths_app, sleeps_app, Hp, Hs, IHp, IHs, IHc, Hc.
    repeat split. lia.
Qed.

(** The loop never queries more than once per iteration and never prints
    more than one line per query. *)
Lemma watch_loop_bounds conn wal_path ticks :
  forall st,
    (List.length (stdout_lines (snd (watch_loop conn wal_path st ticks)))
     <= count_queries (snd (watch_loop conn wal_path st ticks))
     <= List.length ticks)%nat.
Proof.
  induction ticks as [|obs rest IH]; intro st.
  - simpl. lia.
  - pose proof (tick_bounds conn wal_path st obs) as Ht.
    specialize (IH (fst (tick conn wal_path st obs))).
    rewrite watch_loop_cons. cbn [fst snd List.length].
    rewrite stdout_lines_app, count_queries_app, length_app. lia.
Qed.

Lemma tick_unchanged conn wal_path st obs :
  sample_unchanged wal_path (last_wal_modtime st) obs = true ->
  tick conn wal_path st obs
  = (mkWatchState (last_timestamp st) (last_wal_modtime st) (poll_count st + 1),
     [EvStat wal_path; EvSleep 5]).
Proof.
  unfold sample_unchanged. rewrite negb_true_iff. intro H.
  tick_cases obs st; congruence.
Qed.

(** As long as the sentinel keeps the value recorded at the start, the loop
    leaves the store alone: no query, no output, and the recorded timestamp
    and sentinel stay as they were, however many iterations pass and
    whatever the store holds meanwhile. *)
Theorem quiet_sentinel_quiet_loop conn wal_path ticks :
  forall st,
    forallb (sample_unchanged wal_path (last_wal_modtime st)) ticks = true ->
    count_queries (snd (watch_loop conn wal_path st ticks)) = 0%nat
    /\ stdout_lines (snd (watch_loop conn wal_path st ticks)) = []
    /\ watch_pair (fst (watch_loop conn wal_path st ticks)) = watch_pair st.
Proof.
  induction ticks as [|obs rest IH]; intros st Hall.
  - repeat split.
  - simpl in Hall. apply andb_true_iff in Hall as [Hobs Hrest].
    rewrite watch_loop_cons, (tick_unchanged conn wal_path st obs Hobs).
    cbn [fst snd].
    destruct (IH (mkWatchState (last_timestamp st) (last_wal_modtime st)
                    (poll_count st + 1)) Hrest) as [Hq [Ho Hp]].
    rewrite count_queries_app, stdout_lines_app, Hq, Ho, Hp. repeat split.
Qed.

Lemma quiet_sentinel_quiet_loop_witness :
  let conn := mkConn (ConnectPath "data/messaging.db") in
  let st := mkWatchState (Timestamp alice_row) (Some t100) 0 in
  let ticks := [mkTickObs (Mtime t100) (Fetched (Some bob_row));
                mkTickObs (Mtime t100) (FetchRaises "disk I/O error")] in
  count_queries (snd (watch_loop conn "data/messaging.db-wal" st ticks)) = 0%nat
  /\ stdout_lines (snd (watch_loop conn "data/messaging.db-wal" st ticks)) = []
  /\ watch_pair (fst (watch_loop conn "data/messaging.db-wal" st ticks))
     = watch_pair st.
Proof.
  apply (quiet_sentinel_quiet_loop
           (mkConn (ConnectPath "data/messaging.db")) "data/messaging.db-wal"
           [mkTickObs (Mtime t100) (Fetched (Some bob_row));
            mkTickObs (Mtime t100) (FetchRaises "disk I/O error")]
           (mkWatchState (Timestamp alice_row) (Some t100) 0)).
  reflexivity.
Defined.

Lemma tick_not_new conn wal_path st obs :
  answer_not_new (last_timestamp st) obs = true ->
  stdout_lines (snd (tick conn wal_path st obs)) = []
  /\ last_timestamp (fst (tick conn wal_path st obs)) = last_timestamp st.
Proof.
  unfold answer_not_new. intro H.
  tick_all obs st; repeat split.
  all: unfold value_ne in Hts; rewrite H in Hts; discriminate Hts.
Qed.

(** While the store's latest message keeps the recorded timestamp (or the
    store gives no row, or fails), the loop prints nothing and keeps that
    timestamp, however often the sentinel changes. *)
Theorem same_timestamp_no_emission conn wal_path ticks :
  forall st,
    forallb (answer_not_new (last_timestamp st)) ticks = true ->
    stdout_lines (snd (watch_loop conn wal_path st ticks)) = []
    /\ last_timestamp (fst (watch_loop conn wal_path st ticks))
       = last_timestamp st.
Proof.
  induction ticks as [|obs rest IH]; intros st Hall.
  - repeat split.
  - simpl in Hall. apply andb_true_iff in Hall as [Hobs Hrest].
    destruct (tick_not_new conn wal_path st obs Hobs) as [Ho Hts].
    rewrite watch_loop_cons. cbn [fst snd].
    rewrite <- Hts in Hrest. destruct (IH _ Hrest) as [IHo IHts].
    rewrite stdout_lines_app, Ho, IHo, IHts, Hts. repeat split.
Qed.

Lemma same_timestamp_no_emission_witness :
  let conn := mkConn (ConnectPath "data/messaging.db") in
  let st := mkWatchState (Timestamp alice_row) None 0 in
  let ticks := [mkTickObs (Mtime t100) (Fetched (Some alice_row));
                mkTickObs (Mtime t200) (Fetched None);
                mkTickObs (Mtime t100) (Fetched (Some alice_row))] in
  stdout_lines (snd (watch_loop conn "data/messaging.db-wal" st ticks)) = []
  /\ last_timestamp (fst (watch_loop conn "data/messaging.db-wal" st ticks))
     = last_timestamp st.
Proof.
  apply (same_timestamp_no_emission
           (mkConn (ConnectPath "data/messaging.db")) "data/messaging.db-wal"
           [mkTickObs (Mtime t100) (Fetched (Some alice_row));
            mkTickObs (Mtime t200) (Fetched None);
            mkTickObs (Mtime t100) (Fetched (Some alice_row))]
           (mkWatchState (Timestamp alice_row) None 0)).
  reflexivity.
Defined.

(** An iteration that meets the same observation as the one before it does
    nothing but stat and sleep: the first has recorded the sample, so the
    second sees no change, whatever the first one did. *)
Theorem repeated_observation_is_quiet conn wal_path st obs :
  stat_ok (obs_wal obs) = true ->
  let st1 := fst (tick conn wal_path st obs) in
  tick conn wal_path st1 obs
  = (mkWatchState (last_timestamp st1) (last_wal_modtime st1)
       (poll_count st1 + 1),
     [EvStat wal_path; EvSleep 5]).
Proof.
  intros Hok st1. subst st1. apply tick_unchanged.
  unfold sample_unchanged. rewrite negb_true_iff.
  assert (Hself : modtime_ne (sample_of wal_path obs) (sample_of wal_path obs)
                  = false).
  { apply modtime_ne_false; try reflexivity;
      unfold sample_of, get_wal_modtime;
      destruct (obs_wal obs); simpl in *; assumption || reflexivity. }
  revert Hself.
  tick_all obs st; cbn [last_wal_modtime]; intro Hself;
    try exact Hself; congruence.
Qed.

Lemma repeated_observation_is_quiet_witness :
  let conn := mkConn (ConnectPath "data/messaging.db") in
  let obs := mkTickObs (Mtime t100) (Fetched (Some bob_row)) in
  let st1 := fst (tick conn "data/messaging.db-wal"
                    (mkWatchState (Timestamp alice_row) None 0) obs) in
  tick conn "data/messaging.db-wal" st1 obs
  = (mkWatchState (last_timestamp st1) (last_wal_modtime st1)
       (poll_count st1 + 1),
     [EvStat "data/messaging.db-wal"; EvSleep 5]).
Proof.
  apply (repeated_observation_is_quiet
           (mkConn (ConnectPath "data/messaging.db")) "data/messaging.db-wal"
           (mkWatchState (Timestamp alice_row) None 0)
           (mkTickObs (Mtime t100) (Fetched (Some bob_row)))).
  reflexivity.
Defined.

(** ** Further properties of [main] *)

Lemma append_assoc (a b c : string) : (a ++ b) ++ c = a ++ (b ++ c).
Proof. induction a as [|ch a IH]; simpl; [reflexivity | now rewrite IH]. Qed.

(** The companion file the loop watches is the database path with [-wal]
    appended, the name SQLite gives the write-ahead log. *)
Lemma wal_path_of_db_path (d : string) :
  os_path_join d "messaging.db-wal" = os_path_join d "messaging.db" ++ "-wal".
Proof.
  unfold os_path_join.
  destruct (String.eqb d "" || ends_with_sep d)%bool;
    rewrite !append_assoc; reflexivity.
Qed.

Lemma inner_detail_lines wal_path (l : list (string * value)) :
  forallb (inner_event_at wal_path) (map detail_line l) = true.
Proof.
  induction l as [|kv l IH]; [reflexivity|].
  cbn [map forallb]. rewrite detail_line_print. exact IH.
Qed.

Lemma tick_inner conn wal_path st obs :
  forallb (inner_event_at wal_path) (snd (tick conn wal_path st obs)) = true.
Proof.
  tick_all obs st; cbn [forallb inner_event_at print];
    rewrite ?String.eqb_refl; reflexivity.
Qed.

Lemma watch_loop_inner conn wal_path ticks :
  forall st,
    forallb (inner_event_at wal_path) (snd (watch_loop conn wal_path st ticks))
    = true.
Proof.
  induction ticks as [|obs rest IH]; intro st.
  - reflexivity.
  - rewrite watch_loop_cons. cbn [snd].
    rewrite forallb_app, tick_inner, IH. reflexivity.
Qed.

Lemma watch_mode_inner conn db_dir first wal0 ticks :
  forallb (inner_event_at (os_path_join db_dir "messaging.db-wal"))
    (snd (watch_mode conn db_dir first wal0 ticks)) = true.
Proof.
  unfold watch_mode, get_most_recent_message, get_wal_modtime.
  destruct first as [[r|]|e]; cbn [fst snd opt_row_truthy andb];
    rewrite ?row_truthy_true; try reflexivity.
  pose proof (watch_loop_inner conn
                (os_path_join db_dir "messaging.db-wal") ticks) as Hloop.
  destruct wal0 as [t|];
    match goal with
    | |- context [watch_loop ?c ?p ?s ?l] =>
        specialize (Hloop s); destruct (watch_loop c p s l) as [st ev]
    end;
    cbn [fst snd] in *;
    rewrite !forallb_app, Hloop; cbn [forallb inner_event_at print andb];
    rewrite ?String.eqb_refl; reflexivity.
Qed.

Lemma one_shot_inner wal_path conn args first :
  forallb (inner_event_at wal_path) (fst (one_shot conn args first)) = true.
Proof.
  unfold one_shot, get_most_recent_message.
  destruct first as [[r|]|e]; cbn [fst snd opt_row_truthy andb];
    rewrite ?row_truthy_true, ?display_default_line;
    destruct (args_debug args), (args_message args), (args_id args),
      (args_time args);
    cbn [fst snd andb negb]; rewrite ?forallb_app;
    cbn [forallb inner_event_at print app andb];
    rewrite ?inner_detail_lines; reflexivity.
Qed.

Lemma inner_no_close wal_path (evs : list event) :
  forallb (inner_event_at wal_path) evs = true ->
  count_closes evs = 0%nat /\ connect_targets evs = [] /\ stderr_lines evs = [].
Proof.
  induction evs as [|[[|] l|t|q|p|n|m|] evs IH]; simpl; intro H;
    try discriminate; try (apply andb_true_iff in H as [_ H]); auto.
Qed.

Lemma opens_store_parts args w :
  opens_store args w = true
  <-> directory_ok args w = true /\ flags_conflict args = false
      /\ sqlite3_connect w (ConnectPath (db_path_of args)) = Connected.
Proof.
  unfold opens_store, directory_ok, flags_conflict, db_path_of.
  rewrite !andb_true_iff, negb_true_iff.
  destruct (sqlite3_connect w _); intuition (try discriminate; auto).
Qed.

(** The three ways [main] stops before the [try] block. *)
Lemma main_not_open args w :
  opens_store args w = false ->
  (directory_ok args w = false
   /\ exists line, main args w = ([EvPrint Stderr line], Raise (SystemExit 1)))
  \/ (directory_ok args w = true /\ flags_conflict args = true
      /\ main args w
         = ([EvParserError "--watch/-w cannot be used with other flags"],
            Raise (SystemExit 2)))
  \/ (directory_ok args w = true /\ flags_conflict args = false
      /\ exists e,
           sqlite3_connect w (ConnectPath (db_path_of args)) = ConnectRaises e
           /\ main args w
              = ([EvConnect (ConnectPath (db_path_of args));
                  print ("Error connecting to database: " ++ e)],
                 Raise (SystemExit 1))).
Proof.
  unfold opens_store, directory_ok, flags_conflict, db_path_of, main,
    connect_to_database.
  destruct (os_path_exists w (args_directory args));
    [|intros _; left; split; [reflexivity | eexists; reflexivity]].
  destruct (os_path_isdir w (args_directory args));
    [|intros _; left; split; [reflexivity | eexists; reflexivity]].
  destruct (os_access_R_OK w (args_directory args));
    [|intros _; left; split; [reflexivity | eexists; reflexivity]].
  cbn [negb andb].
  destruct (args_watch args && _)%bool;
    [intros _; right; left; repeat split |].
  cbn [negb andb].
  destruct (sqlite3_connect w _) as [|e]; [discriminate|].
  intros _. right; right. repeat split. exists e. split; reflexivity.
Qed.

(** Once the store is open, [main] connects first and closes last, whatever
    happens in between (a printed message, an exit with status 1, the
    interrupt of watch mode); and in between it only prints to standard
    output, sends the one SELECT, stats the database path with [-wal]
    appended and sleeps five seconds at a time.  When the store does not
    open, nothing is queried and nothing is closed. *)
Theorem connection_lifetime args w :
  if opens_store args w then
    exists evs,
      fst (main args w)
      = (EvConnect (ConnectPath (db_path_of args)) :: evs ++ [EvClose])%list
      /\ forallb (inner_event_at (db_path_of args ++ "-wal")) evs = true
  else
    count_closes (fst (main args w)) = 0%nat
    /\ count_queries (fst (main args w)) = 0%nat.
Proof.
  destruct (opens_store args w) eqn:Hopen.
  - rewrite (main_opens args w Hopen). cbv zeta. unfold db_path_of.
    destruct (args_watch args); cbn [fst]; eexists; split;
      try reflexivity.
    + rewrite <- wal_path_of_db_path. apply watch_mode_inner.
    + apply one_shot_inner.
  - destruct (main_not_open args w Hopen)
      as [[_ [l ->]] | [[_ [_ ->]] | [_ [_ [e [_ ->]]]]]]; split; reflexivity.
Qed.

(** A command line that is turned down (the directory fails one of the
    three checks, or [--watch] comes with an output flag) never reaches
    SQLite.  The only effect is the report of the error: for the directory
    a line on standard error saying which check failed (existence before
    kind, kind before readability), for the flags the parser's error; no
    connection is attempted, nothing is printed on standard output, and the
    status is 1 for the directory and 2 for the flags, the directory being
    checked first. *)
Theorem rejected_command_line args w :
  (directory_ok args w && negb (flags_conflict args))%bool = false ->
  let d := args_directory args in
  fst (main args w)
  = [if negb (os_path_exists w d)
     then EvPrint Stderr ("Error: Directory '" ++ d ++ "' does not exist")
     else if negb (os_path_isdir w d)
     then EvPrint Stderr ("Error: '" ++ d ++ "' is not a directory")
     else if negb (os_access_R_OK w d)
     then EvPrint Stderr ("Error: Directory '" ++ d ++ "' is not readable")
     else EvParserError "--watch/-w cannot be used with other flags"]
  /\ connect_targets (fst (main args w)) = []
  /\ stdout_lines (fst (main args w)) = []
  /\ List.length (fst (main args w)) = 1%nat
  /\ exit_status (snd (main args w)) = (if directory_ok args w then 2 else 1).
Proof.
  unfold directory_ok, flags_conflict, main. cbv zeta.
  destruct (os_path_exists w (args_directory args)); [|repeat split].
  destruct (os_path_isdir w (args_directory args)); [|repeat split].
  destruct (os_access_R_OK w (args_directory args)); [|repeat split].
  cbn [negb andb].
  destruct (args_watch args && _)%bool; [repeat split | discriminate].
Qed.

Lemma rejected_command_line_witness :
  let args := mkArgs "data" false false false false false in
  let w := mkWorld (fun _ => true) (fun _ => false) (fun _ => true)
             (fun p => p) (fun _ => Connected) (Fetched (Some alice_row))
             RaisesOSError [] in
  fst (main args w) = [EvPrint Stderr "Error: 'data' is not a directory"]
  /\ connect_targets (fst (main args w)) = []
  /\ stdout_lines (fst (main args w)) = []
  /\ List.length (fst (main args w)) = 1%nat
  /\ exit_status (snd (main args w)) = 1.
Proof.
  apply (rejected_command_line
           (mkArgs "data" false false false false false)
           (mkWorld (fun _ => true) (fun _ => false) (fun _ => true)
              (fun p => p) (fun _ => Connected) (Fetched (Some alice_row))
              RaisesOSError [])).
  reflexivity.
Defined.

(** When [sqlite3.connect] fails, the error is reported on standard output
    (not on standard error), no query is made, nothing is closed and the
    status is 1. *)
Theorem connection_failure args w e :
  directory_ok args w = true ->
  flags_conflict args = false ->
  sqlite3_connect w (ConnectPath (db_path_of args)) = ConnectRaises e ->
  stdout_lines (fst (main args w)) = ["Error connecting to database: " ++ e]
  /\ stderr_lines (fst (main args w)) = []
  /\ count_queries (fst (main args w)) = 0%nat
  /\ count_closes (fst (main args w)) = 0%nat
  /\ exit_status (snd (main args w)) = 1.
Proof.
  intros Hd Hf Hconn.
  assert (Hopen : opens_store args w = false).
  { destruct (opens_store args w) eqn:Hopen; [|reflexivity].
    apply opens_store_parts in Hopen as [_ [_ Hc]]. congruence. }
  destruct (main_not_open args w Hopen)
    as [[Hd' _] | [[_ [Hf' _]] | [_ [_ [e' [Hc' ->]]]]]]; try congruence.
  assert (e' = e) by congruence. subst e'. repeat split.
Qed.

Lemma connection_failure_witness :
  let args := mkArgs "data" false false false false false in
  let w := mkWorld (fun _ => true) (fun _ => true) (fun _ => true)
             (fun p => p) (fun _ => ConnectRaises "unable to open database file")
             (Fetched (Some alice_row)) RaisesOSError [] in
  stdout_lines (fst (main args w))
  = ["Error connecting to database: " ++ "unable to open database file"]
  /\ stderr_lines (fst (main args w)) = []
  /\ count_queries (fst (main args w)) = 0%nat
  /\ count_closes (fst (main args w)) = 0%nat
  /\ exit_status (snd (main args w)) = 1.
Proof.
  apply (connection_failure
           (mkArgs "data" false false false false false)
           (mkWorld (fun _ => true) (fun _ => true) (fun _ => true)
              (fun p => p)
              (fun _ => ConnectRaises "unable to open database file")
              (Fetched (Some alice_row)) RaisesOSError [])
           "unable to open database file");
    reflexivity.
Defined.

(** A one-shot invocation whose query fails ends with status 1 and, unless
    [--debug] is given, without a word: under [--debug] it prints the error
    and then "No messages found in the database.". *)
Theorem one_shot_query_error args w e :
  opens_store args w = true ->
  args_watch args = false ->
  store_first w = FetchRaises e ->
  exit_status (snd (main args w)) = 1
  /\ stdout_lines (fst (main args w))
     = (if args_debug args
        then ["Error querying PrivateMessages: " ++ e;
              "No messages found in the database."]
        else [])
  /\ stderr_lines (fst (main args w)) = [].
Proof.
  intros Hopen Hwatch Hfirst.
  rewrite (main_opens args w Hopen), Hwatch, Hfirst. cbv zeta.
  unfold one_shot, get_most_recent_message. cbn [fst snd].
  destruct (args_debug args); repeat split.
Qed.

Lemma one_shot_query_error_witness :
  let args := mkArgs "data" false false false true false in
  let w := world_with (FetchRaises "no such table: PrivateMessages")
             RaisesOSError [] in
  exit_status (snd (main args w)) = 1
  /\ stdout_lines (fst (main args w))
     = ["Error querying PrivateMessages: " ++ "no such table: PrivateMessages";
        "No messages found in the database."]
  /\ stderr_lines (fst (main args w)) = [].
Proof.
  apply (one_shot_query_error
           (mkArgs "data" false false false true false)
           (world_with (FetchRaises "no such table: PrivateMessages")
              RaisesOSError [])
           "no such table: PrivateMessages");
    reflexivity.
Defined.

(** In watch mode a seed query that fails is taken for an empty store: the
    process prints "No messages found in database", does not name the
    error, never stats the companion file and ends with status 0. *)
Theorem watch_seed_query_error args w e :
  opens_store args w = true ->
  args_watch args = true ->
  store_first w = FetchRaises e ->
  stdout_lines (fst (main args w)) = ["No messages found in database"]
  /\ stat_paths (fst (main args w)) = []
  /\ count_queries (fst (main args w)) = 1%nat
  /\ exit_status (snd (main args w)) = 0.
Proof.
  intros Hopen Hwatch Hfirst.
  rewrite (main_opens args w Hopen), Hwatch, Hfirst. repeat split.
Qed.

Lemma watch_seed_query_error_witness :
  let args := mkArgs "data" false false false false true in
  let w := world_with (FetchRaises "database disk image is malformed")
             (Mtime t100) [mkTickObs (Mtime t200) (Fetched (Some bob_row))] in
  stdout_lines (fst (main args w)) = ["No messages found in database"]
  /\ stat_paths (fst (main args w)) = []
  /\ count_queries (fst (main args w)) = 1%nat
  /\ exit_status (snd (main args w)) = 0.
Proof.
  apply (watch_seed_query_error
           (mkArgs "data" false false false false true)
           (world_with (FetchRaises "database disk image is malformed")
              (Mtime t100) [mkTickObs (Mtime t200) (Fetched (Some bob_row))])
           "database disk image is malformed");
    reflexivity.
Defined.

Lemma stdout_detail_lines (l : list (string * value)) :
  stdout_lines (map detail_line l) = map detail_text l.
Proof.
  induction l as [|kv l IH]; [reflexivity|].
  cbn [map]. rewrite detail_line_print. simpl. now rewrite IH.
Qed.

Lemma count_queries_detail_lines (l : list (string * value)) :
  count_queries (map detail_line l) = 0%nat.
Proof.
  induction l as [|kv l IH]; [reflexivity|].
  cbn [map]. rewrite detail_line_print. exact IH.
Qed.

(** What a one-shot invocation prints for the row it found: under [--debug]
    a heading and one [name: value] line per column, in the order in which
    the table declares its columns ([row.keys()]) and with the columns the
    code does not know; then the one field
    asked for, bare, [--message] going before [--id] and [--id] before
    [--time]; without any flag the default line, and under [--debug] alone
    nothing more.  The status is 0 and there was one query. *)
Theorem one_shot_output args w r :
  opens_store args w = true ->
  args_watch args = false ->
  store_first w = Fetched (Some r) ->
  stdout_lines (fst (main args w))
  = ((if args_debug args
      then "Most recent entry from 'PrivateMessages' table:"
           :: map detail_text (row_items r)
      else [])
     ++ (if args_message args then [py_str (Message r)]
         else if args_id args then [py_str (Id r)]
         else if args_time args then [py_str (Timestamp r)]
         else if args_debug args then []
         else [default_line r]))%list
  /\ count_queries (fst (main args w)) = 1%nat
  /\ exit_status (snd (main args w)) = 0.
Proof.
  intros Hopen Hwatch Hfirst.
  rewrite (main_opens args w Hopen), Hwatch, Hfirst. cbv zeta.
  unfold one_shot, get_most_recent_message.
  cbn [fst snd opt_row_truthy]. rewrite row_truthy_true, display_default_line.
  cbn [fst snd andb exit_status].
  rewrite !app_comm_cons, !stdout_lines_app, !count_queries_app.
  destruct (args_debug args);
    cbn [stdout_lines count_queries print negb];
    rewrite ?stdout_detail_lines, ?count_queries_detail_lines, !app_nil_r;
    destruct (args_message args), (args_id args), (args_time args);
    repeat split.
Qed.

Lemma one_shot_output_witness :
  let args := mkArgs "data" true true false true false in
  let w := world_with (Fetched (Some carol_row)) RaisesOSError [] in
  stdout_lines (fst (main args w))
  = ["Most recent entry from 'PrivateMessages' table:"; "Username: carol";
     "Id: 7"; "Timestamp: 2024-03-05T08:00:00"; "Direction: 1"; "Message: hey";
     "hey"]
  /\ count_queries (fst (main args w)) = 1%nat
  /\ exit_status (snd (main args w)) = 0.
Proof.
  apply (one_shot_output
           (mkArgs "data" true true false true false)
           (world_with (Fetched (Some carol_row)) RaisesOSError [])
           carol_row);
    reflexivity.
Defined.

(** A null body is rendered in two ways: [--message] prints the word
    [None], while the default line of the same row shows the placeholder
    "no message". *)
Theorem null_message_rendering d w r :
  opens_store (mkArgs d false false false false false) w = true ->
  store_first w = Fetched (Some r) ->
  Message r = VNone ->
  stdout_lines (fst (main (mkArgs d true false false false false) w))
  = ["None"]
  /\ stdout_lines (fst (main (mkArgs d false false false false false) w))
     = ["[" ++ shown_field (Timestamp r) "unknown time"
        ++ "][" ++ shown_field (Username r) "unknown user"
        ++ "] no message"].
Proof.
  intros Hopen Hfirst Hnull.
  assert (Hopen' : opens_store (mkArgs d true false false false false) w = true)
    by exact Hopen.
  rewrite (main_opens _ w Hopen), (main_opens _ w Hopen'), Hfirst. cbv zeta.
  unfold one_shot, get_most_recent_message.
  cbn [fst snd opt_row_truthy args_debug args_message args_id args_time
       args_watch andb negb].
  rewrite row_truthy_true, display_default_line.
  unfold default_line. rewrite Hnull. split; reflexivity.
Qed.

Lemma null_message_rendering_witness :
  let w := world_with (Fetched (Some nulls_row)) RaisesOSError [] in
  stdout_lines (fst (main (mkArgs "data" true false false false false) w))
  = ["None"]
  /\ stdout_lines (fst (main (mkArgs "data" false false false false false) w))
     = ["[" ++ shown_field (Timestamp nulls_row) "unknown time"
        ++ "][" ++ shown_field (Username nulls_row) "unknown user"
        ++ "] no message"].
Proof.
  apply (null_message_rendering "data"
           (world_with (Fetched (Some nulls_row)) RaisesOSError [])
           nulls_row);
    reflexivity.
Defined.

(** A watch run that finds a seed row: the companion file, at the database
    path with [-wal] appended, is stat'ed once before the loop and once per
    iteration; there is one sleep of five seconds per iteration; at most
    one query per iteration follows the seed query, and at most one line per
    such query is printed before the closing "Watch mode stopped."; the
    status is 0. *)
Theorem watch_run_shape args w r :
  opens_store args w = true ->
  args_watch args = true ->
  store_first w = Fetched (Some r) ->
  let n := List.length (ticks w) in
  let trace := fst (main args w) in
  stat_paths trace = repeat (db_path_of args ++ "-wal") (S n)
  /\ sleeps trace = repeat 5 n
  /\ (count_queries trace <= S n)%nat
  /\ (exists emitted,
        stdout_lines trace
        = (emitted ++ [String "010" "Watch mode stopped."])%list
        /\ (S (List.length emitted) <= count_queries trace)%nat)
  /\ exit_status (snd (main args w)) = 0.
Proof.
  intros Hopen Hwatch Hfirst n trace. subst n trace.
  rewrite (main_opens args w Hopen), Hwatch, Hfirst. cbv zeta.
  unfold watch_mode, get_most_recent_message, db_path_of.
  cbn [fst snd opt_row_truthy andb]. rewrite row_truthy_true.
  rewrite <- wal_path_of_db_path.
  set (wal_path := os_path_join (args_directory args) "messaging.db-wal").
  set (c := mkConn _).
  assert (Hwal : exists s0, get_wal_modtime wal_path (wal_first w)
                            = (s0, [EvStat wal_path])).
  { unfold get_wal_modtime. destruct (wal_first w); eexists; reflexivity. }
  destruct Hwal as [s0 ->].
  pose proof (watch_loop_shape c wal_path (ticks w)
                (mkWatchState (Timestamp r) s0 0)) as [Hp [Hs _]].
  pose proof (watch_loop_bounds c wal_path (ticks w)
                (mkWatchState (Timestamp r) s0 0)) as [Hb1 Hb2].
  destruct (watch_loop c wal_path (mkWatchState (Timestamp r) s0 0) (ticks w))
    as [st ev].
  cbn [fst snd] in *.
  match goal with
  | |- context [stat_paths ?tr] =>
      assert (Htr : tr
                    = ([EvConnect
                          (ConnectPath
                             (os_path_join (args_directory args) "messaging.db"));
                        EvQuery latest_sql; EvStat wal_path]
                       ++ ev
                       ++ [print (String "010" "Watch mode stopped."); EvClose])%list)
        by (cbn [andb app]; rewrite <- ?app_assoc; reflexivity);
      rewrite Htr; clear Htr
  end.
  rewrite !stat_paths_app, !sleeps_app, !count_queries_app, !stdout_lines_app,
    Hp, Hs.
  simpl. rewrite !app_nil_r. repeat split.
  - lia.
  - exists (stdout_lines ev). split; [reflexivity | lia].
Qed.

Lemma watch_run_shape_witness :
  let args := mkArgs "data" false false false false true in
  let w := world_with (Fetched (Some alice_row)) RaisesOSError
             [mkTickObs (Mtime t100) (Fetched (Some bob_row));
              mkTickObs (Mtime t100) (Fetched (Some bob_row))] in
  let n := List.length (ticks w) in
  let trace := fst (main args w) in
  stat_paths trace = repeat (db_path_of args ++ "-wal") (S n)
  /\ sleeps trace = repeat 5 n
  /\ (count_queries trace <= S n)%nat
  /\ (exists emitted,
        stdout_lines trace
        = (emitted ++ [String "010" "Watch mode stopped."])%list
        /\ (S (List.length emitted) <= count_queries trace)%nat)
  /\ exit_status (snd (main args w)) = 0.
Proof.
  apply (watch_run_shape
           (mkArgs "data" false false false false true)
           (world_with (Fetched (Some alice_row)) RaisesOSError
              [mkTickObs (Mtime t100) (Fetched (Some bob_row));
               mkTickObs (Mtime t100) (Fetched (Some bob_row))])
           alice_row);
    reflexivity.
Defined.

Lemma tick_emission conn wal_path st obs :
  (stdout_lines (snd (tick conn wal_path st obs)) = []
   /\ last_timestamp (fst (tick conn wal_path st obs)) = last_timestamp st)
  \/ exists r,
       obs_store obs = Fetched (Some r)
       /\ stdout_lines (snd (tick conn wal_path st obs)) = [default_line r]
       /\ last_timestamp (fst (tick conn wal_path st obs)) = Timestamp r.
Proof.
  tick_all obs st; try (left; split; reflexivity).
  right. exists r0. repeat split.
Qed.

(** The loop prints nothing of its own: every line it writes is the default
    line of a row the store returned on one of the iterations, and the
    timestamp it ends with is the one it started with or that of such a
    row. *)
Theorem loop_prints_fetched_rows conn wal_path ticks :
  forall st,
    Forall (fun line =>
              exists obs r, In obs ticks
                            /\ obs_store obs = Fetched (Some r)
                            /\ line = default_line r)
           (stdout_lines (snd (watch_loop conn wal_path st ticks)))
    /\ (last_timestamp (fst (watch_loop conn wal_path st ticks))
        = last_timestamp st
        \/ exists obs r, In obs ticks
                         /\ obs_store obs = Fetched (Some r)
                         /\ last_timestamp
                              (fst (watch_loop conn wal_path st ticks))
                            = Timestamp r).
Proof.
  induction ticks as [|obs rest IH]; intro st.
  - split; [constructor | now left].
  - rewrite watch_loop_cons. cbn [fst snd]. rewrite stdout_lines_app.
    destruct (IH (fst (tick conn wal_path st obs))) as [IHout IHts].
    assert (Hrest : Forall (fun line =>
                      exists obs0 r, In obs0 (obs :: rest)
                                     /\ obs_store obs0 = Fetched (Some r)
                                     /\ line = default_line r)
                      (stdout_lines
                         (snd (watch_loop conn wal_path
                                 (fst (tick conn wal_path st obs)) rest)))).
    { eapply Forall_impl; [|exact IHout].
      intros line [o [r [Hin H]]]. exists o, r. split; [now right | exact H]. }
    assert (Hlater : forall o r,
               In o rest -> obs_store o = Fetched (Some r) ->
               last_timestamp
                 (fst (watch_loop conn wal_path
                         (fst (tick conn wal_path st obs)) rest)) = Timestamp r ->
               exists obs0 r0, In obs0 (obs :: rest)
                               /\ obs_store obs0 = Fetched (Some r0)
                               /\ last_timestamp
                                    (fst (watch_loop conn wal_path
                                            (fst (tick conn wal_path st obs))
                                            rest)) = Timestamp r0).
    { intros o r Hin Ho Hl. exists o, r. repeat split; [now right | | ]; assumption. }
    destruct (tick_emission conn wal_path st obs)
      as [[Hout Hts] | [r [Hr [Hout Hts]]]]; rewrite Hout.
    + split; [exact Hrest|].
      destruct IHts as [Hsame | [o [r [Hin [Ho Hl]]]]].
      * left. congruence.
      * right. now apply (Hlater o r).
    + split.
      * constructor; [|exact Hrest].
        exists obs, r. repeat split; [now left | exact Hr].
      * right. destruct IHts as [Hsame | [o [r' [Hin [Ho Hl]]]]].
        -- exists obs, r. repeat split; [now left | exact Hr | congruence].
        -- now apply (Hlater o r').
Qed.

(** C9, as stated, fails: a one-shot invocation opens the store by path,
    read-write. *)
Lemma one_shot_opens_read_write : ~ one_shot_opens_read_only.
Proof.
  intro H.
  specialize (H (mkArgs "data" false false false false false)
                (world_with (Fetched (Some alice_row)) RaisesOSError [])
                eq_refl).
  discriminate H.
Qed.

(** C9, amended. [main] connects at most once, and always by path, which
    is the read-write mode: every invocation whose store opens, one-shot
    or watch, has opened [<directory>/messaging.db] that way.  The
    read-only, immutable mode of [connect_to_database], the URI
    [file:<absolute path>?mode=ro&immutable=1], is used only when it is
    called with [read_only] set, which [main] never does. *)
Theorem main_never_opens_read_only args w abspath sqlite_connect db_path :
  let targets := connect_targets (fst (main args w)) in
  (targets = [] \/ targets = [ConnectPath (db_path_of args)])
  /\ forallb (fun t => negb (is_read_only t)) targets = true
  /\ (opens_store args w = true -> targets = [ConnectPath (db_path_of args)])
  /\ connect_targets
       (snd (connect_to_database abspath sqlite_connect db_path true))
     = [ConnectURI (read_only_uri (abspath db_path))]
  /\ connect_targets
       (snd (connect_to_database abspath sqlite_connect db_path false))
     = [ConnectPath db_path].
Proof.
  intro targets. subst targets.
  assert (Hopen : opens_store args w = true ->
                  connect_targets (fst (main args w))
                  = [ConnectPath (db_path_of args)]).
  { intro Hopen. rewrite (main_opens args w Hopen). cbv zeta.
    unfold db_path_of.
    destruct (args_watch args); cbn [fst connect_targets];
      rewrite connect_targets_app,
        ?watch_mode_connect_targets, ?one_shot_connect_targets;
      reflexivity. }
  assert (Hcases : connect_targets (fst (main args w)) = []
                   \/ connect_targets (fst (main args w))
                      = [ConnectPath (db_path_of args)]).
  { destruct (opens_store args w) eqn:Ho; [right; now apply Hopen|].
    destruct (main_not_open args w Ho)
      as [[_ [l ->]] | [[_ [_ ->]] | [_ [_ [e [_ ->]]]]]];
      [left | left | right]; reflexivity. }
  split; [exact Hcases|].
  split; [destruct Hcases as [-> | ->]; reflexivity|].
  split; [exact Hopen|].
  unfold connect_to_database.
  split; destruct (sqlite_connect _); reflexivity.
Qed.

Lemma main_never_opens_read_only_witness :
  let args := mkArgs "data" false false false false false in
  let w := world_with (Fetched (Some alice_row)) RaisesOSError [] in
  connect_targets (fst (main args w)) = [ConnectPath "data/messaging.db"]
  /\ connect_targets
       (snd (connect_to_database (fun p => "/srv/" ++ p) (fun _ => Connected)
               "data/messaging.db" true))
     = [ConnectURI "file:/srv/data/messaging.db?mode=ro&immutable=1"].
Proof.
  destruct (main_never_opens_read_only
              (mkArgs "data" false false false false false)
              (world_with (Fetched (Some alice_row)) RaisesOSError [])
              (fun p => "/srv/" ++ p) (fun _ => Connected)
              "data/messaging.db")
    as [_ [_ [Hopen [Hro _]]]].
  split; [apply Hopen; reflexivity | exact Hro].
Defined.
